(** * File-Processing: a shallow embedding of [src/main.py]

    [parse_file] globs the fixed input directory, opens the first entry,
    posts it to the parsing API, and writes the returned text under the
    fixed output directory; exceptions are translated into result
    dictionaries by the four handlers at the end of the function.

    Modelling conventions.
    - A Python [str] or [bytes] value is a [string] (its bytes; text is
      held in its UTF-8 encoding, so the literals of the source appear
      as written).  A lone surrogate, which a [str] decoded from JSON
      may hold and UTF-8 cannot encode, is held in the three bytes
      ED A0..BF 80..BF of the generalised scheme.
    - A Python object that the code handles (JSON values, dictionary
      entries) is a [pyval]; a [dict] is an association list whose
      lookup takes the first binding.  JSON numbers are integers or
      binary64 floats.
    - The file system is a tree rooted at the current working directory.
      A directory keeps its entries in a list, read as its listing; a
      new entry is put at the end of the list, where a real file system
      puts it where it likes, so no statement is made about the place
      of a new entry.  Permissions and links are not modelled; a file
      name is limited to 255 bytes.
    - [requests.post] is a function of the call it receives, supplied by
      the environment; every call is recorded in an event trace together
      with every file opened for reading.
    - Exceptions are values carrying their class, [str(e)] and the
      optional [response] attribute of the [requests] exceptions. *)

From Stdlib Require Import String Ascii List ZArith Bool Lia.
From Stdlib Require Import DecimalString SpecFloat Permutation.
Import ListNotations.
Open Scope string_scope.
Open Scope Z_scope.

Set Warnings "-register-all,-abstract-large-number".

(** ** Python values *)

(** [f == n] for a float and an integer; Python compares the two
    exactly. *)
Definition float_eq_Z (f : spec_float) (n : Z) : bool :=
  match f with
  | S754_zero _ => Z.eqb n 0
  | S754_finite sign m e =>
      let magnitude :=
        if 0 <=? e then Some (Zpos m * 2 ^ e)
        else if (Zpos m mod 2 ^ (- e)) =? 0 then Some (Zpos m / 2 ^ (- e))
        else None in
      match magnitude with
      | Some v => Z.eqb (if sign then - v else v) n
      | None => false
      end
  | S754_infinity _ | S754_nan => false
  end.

Inductive pyval : Type :=
| PNone
| PBool (b : bool)
| PInt (z : Z)
| PFloat (f : spec_float)
| PStr (s : string)
| PList (l : list pyval)
| PDict (d : list (string * pyval)).

Definition dict : Type := list (string * pyval).

(** [d.get(k)] on an association list: the value, if any. *)
Fixpoint dict_get (d : dict) (k : string) : option pyval :=
  match d with
  | [] => None
  | (k', v) :: d' => if String.eqb k' k then Some v else dict_get d' k
  end.

(** [d.get(k, default)]. *)
Definition dict_get_default (d : dict) (k : string) (default : pyval) : pyval :=
  match dict_get d k with
  | Some v => v
  | None => default
  end.

(** [v != 200] as the source tests it; [True] and [False] compare as
    the integers 1 and 0, and a float by its exact value. *)
Definition py_ne_int (v : pyval) (n : Z) : bool :=
  match v with
  | PInt z => negb (Z.eqb z n)
  | PBool b => negb (Z.eqb (if b then 1 else 0) n)
  | PFloat f => negb (float_eq_Z f n)
  | _ => true
  end.

(** The value is the number 200: the integer, or a float of that
    value. *)
Definition is_200 (v : pyval) : Prop :=
  v = PInt 200 \/ exists f, v = PFloat f /\ float_eq_Z f 200 = true.

(** [str(n)] for an integer. *)
Definition str_of_int (z : Z) : string :=
  NilZero.string_of_int (Z.to_int z).

(** [type(v).__name__] *)
Definition type_name (v : pyval) : string :=
  match v with
  | PNone => "NoneType"
  | PBool _ => "bool"
  | PInt _ => "int"
  | PFloat _ => "float"
  | PStr _ => "str"
  | PList _ => "list"
  | PDict _ => "dict"
  end.

(** ** Exceptions *)

Inductive exn_class : Type :=
(* requests.exceptions *)
| RequestException
| Timeout
| ReadTimeout
| ConnectTimeout
| ConnectionError
| ProxyError
| SSLError
| HTTPError
| TooManyRedirects
| JSONDecodeError
(* builtins below Exception *)
| FileNotFoundError
| FileExistsError
| IsADirectoryError
| NotADirectoryError
| PermissionError
| OSError
| UnicodeEncodeError
| TypeError
| AttributeError
| ValueError
(* builtins below BaseException only *)
| KeyboardInterrupt
| SystemExit.

(** What a handler reads of [e.response]. *)
Record response_info : Type := mkInfo {
  status_code : Z;
  text : string
}.

Record exn : Type := mkExn {
  cls : exn_class;
  exn_str : string;                    (* str(e) *)
  exn_response : option response_info  (* e.response *)
}.

(** [isinstance(e, requests.exceptions.Timeout)] *)
Definition is_Timeout (c : exn_class) : bool :=
  match c with
  | Timeout | ReadTimeout | ConnectTimeout => true
  | _ => false
  end.

(** [isinstance(e, requests.exceptions.ConnectionError)] *)
Definition is_ConnectionError (c : exn_class) : bool :=
  match c with
  | ConnectionError | ProxyError | SSLError | ConnectTimeout => true
  | _ => false
  end.

(** [isinstance(e, requests.exceptions.HTTPError)] *)
Definition is_HTTPError (c : exn_class) : bool :=
  match c with
  | HTTPError => true
  | _ => false
  end.

(** [isinstance(e, Exception)] *)
Definition is_Exception (c : exn_class) : bool :=
  match c with
  | KeyboardInterrupt | SystemExit => false
  | _ => true
  end.

(** [repr(s)] for a [str]: single quotes, unless the string has a
    single quote and no double quote; the backslash and the quote in
    use are escaped, and so are the control characters.  Bytes above 127
    are text in UTF-8 and taken to be printable. *)
Definition double_quote : ascii := Ascii.ascii_of_nat 34.
Definition single_quote : ascii := Ascii.ascii_of_nat 39.
Definition backslash : ascii := Ascii.ascii_of_nat 92.

Fixpoint has_char (c : ascii) (s : string) : bool :=
  match s with
  | EmptyString => false
  | String a s' => (Ascii.eqb a c || has_char c s')%bool
  end.

Definition hex_digit (n : nat) : ascii :=
  match String.get n "0123456789abcdef" with
  | Some c => c
  | None => "0"%char
  end.

(** [n] in [k] lower-case hexadecimal digits. *)
Fixpoint hex (k n : nat) : string :=
  match k with
  | O => ""
  | S k' => hex k' (Nat.div n 16) ++ String (hex_digit (Nat.modulo n 16)) ""
  end.

Definition repr_char (quote a : ascii) : string :=
  let n := nat_of_ascii a in
  if Ascii.eqb a backslash then String backslash (String backslash "")
  else if Ascii.eqb a quote then String backslash (String quote "")
  else if Nat.eqb n 9 then String backslash "t"
  else if Nat.eqb n 10 then String backslash "n"
  else if Nat.eqb n 13 then String backslash "r"
  else if (Nat.ltb n 32 || Nat.eqb n 127)%bool then
    String backslash ("x" ++ hex 2 n)
  else String a "".

Fixpoint repr_body (quote : ascii) (s : string) : string :=
  match s with
  | EmptyString => ""
  | String a s' => repr_char quote a ++ repr_body quote s'
  end.

Definition py_repr (s : string) : string :=
  let quote :=
    if (has_char single_quote s && negb (has_char double_quote s))%bool
    then double_quote else single_quote in
  String quote (repr_body quote s ++ String quote "").

(** The strings that [repr] prints as they are, between single quotes:
    those of printable ASCII characters other than the single quote and
    the backslash. *)
Definition is_plain_char (a : ascii) : bool :=
  let n := nat_of_ascii a in
  (Nat.leb 32 n && Nat.ltb n 127
   && negb (Ascii.eqb a single_quote) && negb (Ascii.eqb a backslash))%bool.

Fixpoint is_plain (s : string) : bool :=
  match s with
  | EmptyString => true
  | String a s' => (is_plain_char a && is_plain s')%bool
  end.

(** An [OSError] with a file name: [str(e)] is
    ["[Errno n] message: " + repr(filename)]. *)
Definition os_error (c : exn_class) (errno : string) (p : string) : exn :=
  mkExn c (errno ++ ": " ++ py_repr p) None.

(** ** Encoding text *)

Definition is_continuation (a : ascii) : bool :=
  let n := nat_of_ascii a in (Nat.leb 128 n && Nat.ltb n 192)%bool.

(** The surrogate code point that the string starts with, if it starts
    with one. *)
Definition surrogate_at (s : string) : option nat :=
  match s with
  | String a (String b (String c _)) =>
      let nb := nat_of_ascii b in
      if (Nat.eqb (nat_of_ascii a) 237 && Nat.leb 160 nb && Nat.ltb nb 192
          && is_continuation c)%bool
      then Some (53248 + (nb - 128) * 64 + (nat_of_ascii c - 128))%nat
      else None
  | _ => None
  end.

(** The number of surrogates in a row at the start of the string. *)
Fixpoint surrogate_run (s : string) : nat :=
  match s with
  | String a (String b (String c rest)) =>
      match surrogate_at s with
      | Some _ => S (surrogate_run rest)
      | None => O
      end
  | _ => O
  end.

(** The first surrogate of the string: its position, counted in
    characters from [pos], its code point, and the length of the run of
    surrogates it starts. *)
Fixpoint first_surrogate (pos : nat) (s : string) : option (nat * nat * nat) :=
  match s with
  | EmptyString => None
  | String a s' =>
      match surrogate_at s with
      | Some cp => Some (pos, cp, surrogate_run s)
      | None => first_surrogate (if is_continuation a then pos else S pos) s'
      end
  end.

Definition str_of_nat (n : nat) : string :=
  NilZero.string_of_uint (Nat.to_uint n).

(** [s.encode('utf-8')]: a string with a lone surrogate cannot be
    encoded. *)
Definition utf8_encode (s : string) : exn + string :=
  match first_surrogate 0 s with
  | None => inr s
  | Some (pos, cp, run) =>
      inl (mkExn UnicodeEncodeError
             (if Nat.eqb run 1 then
                "'utf-8' codec can't encode character '" ++ String backslash "u"
                ++ hex 4 cp ++ "' in position " ++ str_of_nat pos
                ++ ": surrogates not allowed"
              else
                "'utf-8' codec can't encode characters in position "
                ++ str_of_nat pos ++ "-" ++ str_of_nat (pos + run - 1)
                ++ ": surrogates not allowed")
             None)
  end.

(** The [AttributeError] of [v.get] when [v] has no such method. *)
Definition no_get_error (v : pyval) : exn :=
  mkExn AttributeError ("'" ++ type_name v ++ "' object has no attribute 'get'") None.

(** The [TypeError] of [write_text] for data that is not a [str]. *)
Definition not_str_error (v : pyval) : exn :=
  mkExn TypeError ("data must be str, not " ++ type_name v) None.

(** ** Paths *)

Definition path : Type := list string.

(** [str(p)] on POSIX; the empty path is the current directory. *)
Fixpoint path_str (p : path) : string :=
  match p with
  | [] => "."
  | [c] => c
  | c :: p' => c ++ "/" ++ path_str p'
  end.

(** [p.parent] *)
Definition parent (p : path) : path := removelast p.

(** [p.name] *)
Definition name (p : path) : string := last p "".

(** Index of the last ['.'] of [s] ([str.rfind]), if any. *)
Fixpoint rfind_dot (s : string) : option nat :=
  match s with
  | EmptyString => None
  | String a s' =>
      match rfind_dot s' with
      | Some i => Some (S i)
      | None => if Ascii.eqb a "."%char then Some 0%nat else None
      end
  end.

(** [PurePath.stem]: the name without its last suffix; a leading or a
    trailing dot does not start a suffix. *)
Definition stem_of (nm : string) : string :=
  match rfind_dot nm with
  | Some i =>
      if (Nat.ltb 0 i && Nat.ltb i (String.length nm - 1))%bool
      then substring 0 i nm
      else nm
  | None => nm
  end.

Definition stem (p : path) : string := stem_of (name p).

(** Fixed path constants of the source. *)
Definition DATA_INPUTS : path := ["data"; "inputs"; "input"].
Definition DATA_OUTPUTS : path := ["data"; "outputs"].

(** API configuration. *)
Definition API_BASE_URL : string := "http://10.0.0.111:31475".

(** ** The file system *)

Inductive node : Type :=
| File (data : string)
| Dir (entries : list (string * node)).

(** First entry of a directory listing with the given name. *)
Fixpoint entry (c : string) (es : list (string * node)) : option node :=
  match es with
  | [] => None
  | (k, n) :: es' => if String.eqb k c then Some n else entry c es'
  end.

(** Replace the entry named [c] where it is, or add it at the end of the
    list (a real listing shows a new entry where the file system puts
    it). *)
Fixpoint set_entry (c : string) (v : node) (es : list (string * node))
  : list (string * node) :=
  match es with
  | [] => [(c, v)]
  | (k, n) :: es' =>
      if String.eqb k c then (k, v) :: es' else (k, n) :: set_entry c v es'
  end.

(** Rewrite the entry named [c] in place. *)
Fixpoint map_entry (c : string) (f : node -> node) (es : list (string * node))
  : list (string * node) :=
  match es with
  | [] => []
  | (k, n) :: es' =>
      if String.eqb k c then (k, f n) :: es' else (k, n) :: map_entry c f es'
  end.

Inductive resolved : Type :=
| Found (n : node)
| NoEnt        (* a component is missing: ENOENT *)
| NotDir.      (* a component below the last is a regular file: ENOTDIR *)

(** Path resolution from the working directory. *)
Fixpoint resolve (n : node) (p : path) : resolved :=
  match p with
  | [] => Found n
  | c :: p' =>
      match n with
      | File _ => NotDir
      | Dir es =>
          match entry c es with
          | Some n' => resolve n' p'
          | None => NoEnt
          end
      end
  end.

(** The tree with [v] installed at [p]; the parent of [p] is expected to
    resolve to a directory, otherwise the tree is returned as it is. *)
Fixpoint put (p : path) (v : node) (n : node) : node :=
  match p with
  | [] => v
  | c :: p' =>
      match n with
      | File _ => n
      | Dir es =>
          match p' with
          | [] => Dir (set_entry c v es)
          | _ :: _ => Dir (map_entry c (put p' v) es)
          end
      end
  end.

Definition is_dir (fs : node) (p : path) : bool :=
  match resolve fs p with
  | Found (Dir _) => true
  | _ => false
  end.

(** [list(p.glob("*"))]: the entries of the directory [p] in listing
    order; nothing when [p] is missing or is not a directory. *)
Definition glob_star (fs : node) (p : path) : list path :=
  match resolve fs p with
  | Found (Dir es) => map (fun e => (p ++ [fst e])%list) es
  | _ => []
  end.

(** [open(p, 'rb')] followed by reading the file to its end. *)
Definition read_bytes (fs : node) (p : path) : exn + string :=
  match resolve fs p with
  | Found (File data) => inr data
  | Found (Dir _) =>
      inl (os_error IsADirectoryError "[Errno 21] Is a directory" (path_str p))
  | NoEnt =>
      inl (os_error FileNotFoundError "[Errno 2] No such file or directory" (path_str p))
  | NotDir =>
      inl (os_error NotADirectoryError "[Errno 20] Not a directory" (path_str p))
  end.

(** [os.mkdir(p)] *)
Definition os_mkdir (fs : node) (p : path) : exn + node :=
  match p with
  | [] => inl (os_error FileExistsError "[Errno 17] File exists" (path_str p))
  | _ :: _ =>
      match resolve fs (parent p) with
      | Found (Dir es) =>
          match entry (name p) es with
          | Some _ =>
              inl (os_error FileExistsError "[Errno 17] File exists" (path_str p))
          | None => inr (put p (Dir []) fs)
          end
      | Found (File _) | NotDir =>
          inl (os_error NotADirectoryError "[Errno 20] Not a directory" (path_str p))
      | NoEnt =>
          inl (os_error FileNotFoundError "[Errno 2] No such file or directory" (path_str p))
      end
  end.

(** [Path.mkdir(parents, exist_ok)]: [os.mkdir], then on
    [FileNotFoundError] the parent is made first (when [parents]) and
    the directory made again without [parents]; any other [OSError] is
    raised again unless [exist_ok] holds and the path is a directory.
    The recursion on the parent is bounded by [fuel]. *)
Fixpoint mkdir_fuel (fuel : nat) (parents exist_ok : bool) (fs : node) (p : path)
  : exn + node :=
  match os_mkdir fs p with
  | inr fs' => inr fs'
  | inl e =>
      match cls e with
      | FileNotFoundError =>
          match fuel, parents, p with
          | S fuel', true, _ :: _ =>
              match mkdir_fuel fuel' true true fs (parent p) with
              | inl e' => inl e'
              | inr fs1 => mkdir_fuel fuel' false exist_ok fs1 p
              end
          | _, _, _ => inl e
          end
      | _ => if (exist_ok && is_dir fs p)%bool then inr fs else inl e
      end
  end.

Definition mkdir (parents exist_ok : bool) (fs : node) (p : path) : exn + node :=
  mkdir_fuel (List.length p) parents exist_ok fs p.

(** The longest file name, in bytes. *)
Definition NAME_MAX : nat := 255.

(** [open(p, 'w')] or [open(p, 'wb')]: the file is created, or truncated
    when it is there. *)
Definition open_w (fs : node) (p : path) : exn + node :=
  match p with
  | [] => inl (os_error IsADirectoryError "[Errno 21] Is a directory" (path_str p))
  | _ :: _ =>
      match resolve fs (parent p) with
      | Found (Dir es) =>
          if Nat.ltb NAME_MAX (String.length (name p)) then
            inl (os_error OSError "[Errno 36] File name too long" (path_str p))
          else
            match entry (name p) es with
            | Some (Dir _) =>
                inl (os_error IsADirectoryError "[Errno 21] Is a directory" (path_str p))
            | _ => inr (put p (File "") fs)
            end
      | Found (File _) | NotDir =>
          inl (os_error NotADirectoryError "[Errno 20] Not a directory" (path_str p))
      | NoEnt =>
          inl (os_error FileNotFoundError "[Errno 2] No such file or directory" (path_str p))
      end
  end.

(** [Path.write_text(data, encoding='utf-8')]: the type of [data] is
    checked first, then the file is opened for writing, the text
    encoded and the bytes written. *)
Definition write_text (fs : node) (p : path) (data : pyval) : exn + node :=
  match data with
  | PStr s =>
      match open_w fs p with
      | inr fs' =>
          match utf8_encode s with
          | inr bytes => inr (put p (File bytes) fs')
          | inl e => inl e
          end
      | inl e => inl e
      end
  | _ => inl (not_str_error data)
  end.

(** The file system that a [write_text] that raises leaves behind: when
    the open had succeeded, the file is there and empty. *)
Definition write_text_leaves (fs : node) (p : path) (data : pyval) : node :=
  match data with
  | PStr _ =>
      match open_w fs p with
      | inr fs' => fs'
      | inl _ => fs
      end
  | _ => fs
  end.

(** ** The HTTP client *)

(** One part of a multipart body: [(filename, fileobj, content_type)],
    the file object standing for the bytes it yields. *)
Record file_part : Type := mkPart {
  part_filename : string;
  part_body : string;
  part_content_type : string
}.

(** A call of [requests.post]; arguments the caller leaves out are
    [None]. *)
Record post_call : Type := mkCall {
  call_url : string;
  call_data : option pyval;
  call_json : option pyval;
  call_params : option dict;
  call_files : option (list (string * file_part));
  call_headers : option dict;
  call_auth : option (string * string);
  call_timeout : option Z
}.

Record response : Type := mkResponse {
  resp_info : response_info;         (* status_code, text *)
  resp_reason : string;
  resp_url : string;
  resp_json : exn + pyval            (* response.json() *)
}.

(** [Response.raise_for_status]: an [HTTPError] carrying the response
    for a status in 400..599. *)
Definition http_error_of (r : response) : option exn :=
  let st := status_code (resp_info r) in
  let tail := resp_reason r ++ " for url: " ++ resp_url r in
  if ((400 <=? st) && (st <? 500))%bool then
    Some (mkExn HTTPError (str_of_int st ++ " Client Error: " ++ tail)
                (Some (resp_info r)))
  else if ((500 <=? st) && (st <? 600))%bool then
    Some (mkExn HTTPError (str_of_int st ++ " Server Error: " ++ tail)
                (Some (resp_info r)))
  else None.

(** ** Effects: state, trace and exceptions *)

Inductive event : Type :=
| EvGlob (p : path)
| EvOpen (p : path)
| EvPost (c : post_call)
| EvMkdir (p : path)
| EvWrite (p : path) (data : pyval).

Record state : Type := mkState {
  fs : node;
  trace : list event     (* oldest event first *)
}.

Definition M (A : Type) : Type := state -> (exn + A) * state.

Definition ret {A} (a : A) : M A := fun s => (inr a, s).

Definition raise {A} (e : exn) : M A := fun s => (inl e, s).

Definition bind {A B} (m : M A) (k : A -> M B) : M B :=
  fun s =>
    match m s with
    | (inr a, s') => k a s'
    | (inl e, s') => (inl e, s')
    end.

Notation "x <- m ;; k" := (bind m (fun x => k))
  (at level 61, m at next level, right associativity).
Notation "m ;;; k" := (bind m (fun _ => k))
  (at level 61, right associativity).

(** [try: body except ...]: [handlers e] is the first clause that
    matches [e], if any; an exception raised inside a clause leaves the
    statement. *)
Definition try_except {A} (body : M A) (handlers : exn -> option (M A)) : M A :=
  fun s =>
    match body s with
    | (inr a, s') => (inr a, s')
    | (inl e, s') =>
        match handlers e with
        | Some h => h s'
        | None => (inl e, s')
        end
    end.

Definition log (ev : event) : M unit :=
  fun s => (inr tt, mkState (fs s) (trace s ++ [ev])).

Definition lift_fs {A} (op : node -> exn + A) : M A :=
  fun s => (op (fs s), s).

Definition update_fs (op : node -> exn + node) : M unit :=
  fun s =>
    match op (fs s) with
    | inr fs' => (inr tt, mkState fs' (trace s))
    | inl e => (inl e, s)
    end.

Definition glob (p : path) : M (list path) :=
  log (EvGlob p) ;;; lift_fs (fun t => inr (glob_star t p)).

Definition open_rb (p : path) : M string :=
  log (EvOpen p) ;;; lift_fs (fun t => read_bytes t p).

Definition path_mkdir (p : path) (parents exist_ok : bool) : M unit :=
  log (EvMkdir p) ;;; update_fs (fun t => mkdir parents exist_ok t p).

Definition path_write_text (p : path) (data : pyval) : M unit :=
  log (EvWrite p data) ;;;
  fun s =>
    match write_text (fs s) p data with
    | inr fs' => (inr tt, mkState fs' (trace s))
    | inl e => (inl e, mkState (write_text_leaves (fs s) p data) (trace s))
    end.

Section Client.

(** The behaviour of [requests.post] in the environment of the call. *)
Variable api : post_call -> exn + response.

(** [requests.post(url, files=files, params=params, timeout=timeout)] *)
Definition requests_post (url : string) (files : list (string * file_part))
           (params : dict) (timeout : Z) : M response :=
  let c := mkCall url None None (Some params) (Some files) None None
                  (Some timeout) in
  log (EvPost c) ;;;
  match api c with
  | inr r => ret r
  | inl e => raise e
  end.

Definition raise_for_status (r : response) : M unit :=
  match http_error_of r with
  | Some e => raise e
  | None => ret tt
  end.

Definition response_json (r : response) : M pyval :=
  match resp_json r with
  | inr v => ret v
  | inl e => raise e
  end.

(** [v.get(k, default)]; only a [dict] has the method. *)
Definition py_get (v : pyval) (k : string) (default : pyval) : M pyval :=
  match v with
  | PDict d => ret (dict_get_default d k default)
  | _ => raise (no_get_error v)
  end.

(** ** Result dictionaries *)

Definition no_input_result : dict :=
  [("success", PBool false);
   ("error", PStr "未找到输入文件");
   ("error_code", PStr "NO_INPUT_FILE")].

Definition parse_failed_result (message : pyval) : dict :=
  [("success", PBool false);
   ("error", message);
   ("error_code", PStr "PARSE_FAILED")].

Definition success_result (content : pyval) (input_name output_filename : string)
  : dict :=
  [("success", PBool true);
   ("message", PStr "文件解析成功");
   ("content", content);
   ("input_file", PStr input_name);
   ("output_file", PStr output_filename)].

Definition timeout_result : dict :=
  [("success", PBool false);
   ("error", PStr "请求超时，文件可能过大或服务器响应缓慢");
   ("error_code", PStr "TIMEOUT")].

Definition connection_error_result : dict :=
  [("success", PBool false);
   ("error", PStr ("无法连接到服务器 " ++ API_BASE_URL));
   ("error_code", PStr "CONNECTION_ERROR")].

Definition http_error_result (r : response_info) : dict :=
  [("success", PBool false);
   ("error", PStr ("HTTP 错误: " ++ str_of_int (status_code r) ++ " - " ++ text r));
   ("error_code", PStr "HTTP_ERROR")].

Definition unexpected_error_result (e : exn) : dict :=
  [("success", PBool false);
   ("error", PStr (exn_str e));
   ("error_code", PStr "UNEXPECTED_ERROR")].

(** ** [parse_file] *)

(** The body of the [try] statement. *)
Definition parse_file_body : M dict :=
  input_files <- glob DATA_INPUTS ;;
  match input_files with
  | [] => ret no_input_result
  | input_file :: _ =>
      let url := API_BASE_URL ++ "/parse" in
      f <- open_rb input_file ;;
      let files := [("file", mkPart (name input_file) f "application/octet-stream")] in
      let params := [("format", PStr "md"); ("cache", PBool true)] in
      response <- requests_post url files params 300 ;;
      raise_for_status response ;;;
      result <- response_json response ;;
      code <- py_get result "code" PNone ;;
      if py_ne_int code 200 then
        message <- py_get result "message" (PStr "解析失败") ;;
        ret (parse_failed_result message)
      else
        content <- py_get result "content" (PStr "") ;;
        path_mkdir DATA_OUTPUTS true true ;;;
        let output_filename := stem input_file ++ "_parsed.md" in
        let output_path := (DATA_OUTPUTS ++ [output_filename])%list in
        path_write_text output_path content ;;;
        ret (success_result content (name input_file) output_filename)
  end.

(** The [except] clauses, in the order of the source. *)
Definition parse_file_handlers (e : exn) : option (M dict) :=
  if is_Timeout (cls e) then Some (ret timeout_result)
  else if is_ConnectionError (cls e) then Some (ret connection_error_result)
  else if is_HTTPError (cls e) then
    Some (match exn_response e with
          | Some r => ret (http_error_result r)
          | None =>
              raise (mkExn AttributeError
                       "'NoneType' object has no attribute 'status_code'" None)
          end)
  else if is_Exception (cls e) then Some (ret (unexpected_error_result e))
  else None.

Definition parse_file : M dict :=
  try_except parse_file_body parse_file_handlers.

End Client.

(** An invocation starts with an empty trace. *)
Definition run (api : post_call -> exn + response) (t : node)
  : (exn + dict) * state :=
  parse_file api (mkState t []).

Definition outcome api t : exn + dict := fst (run api t).
Definition final_fs api t : node := fs (snd (run api t)).
Definition events api t : list event := trace (snd (run api t)).

(** ** Vocabulary of the statements *)

(** [isinstance(e, OSError)] for the classes the file system raises. *)
Definition is_OSError (c : exn_class) : bool :=
  match c with
  | FileNotFoundError | FileExistsError | IsADirectoryError
  | NotADirectoryError | PermissionError | OSError => true
  | _ => false
  end.

(** The classes of the exceptions that the steps of the source raise by
    themselves: the [OSError]s of the file system, the [TypeError] and
    the [UnicodeEncodeError] of [write_text], the [AttributeError] of a
    missing [get]. *)
Definition is_builtin (c : exn_class) : bool :=
  match c with
  | TypeError | AttributeError | UnicodeEncodeError => true
  | _ => is_OSError c
  end.

Inductive outputs_state : Type :=
| OutDir        (* data/outputs is a directory *)
| OutMissing    (* data/outputs, or data itself, is missing *)
| OutFile       (* data/outputs is a regular file *)
| OutBlocked.   (* data is a regular file *)

Definition outputs_state_of (t : node) : outputs_state :=
  match resolve t DATA_OUTPUTS with
  | Found (Dir _) => OutDir
  | Found (File _) => OutFile
  | NoEnt => OutMissing
  | NotDir => OutBlocked
  end.

(** The first entry of the listing of the input directory. *)
Definition first_input (t : node) : option path :=
  hd_error (glob_star t DATA_INPUTS).

(** The call [parse_file] makes for an input file with the given bytes. *)
Definition the_call (input_file : path) (data : string) : post_call :=
  mkCall "http://10.0.0.111:31475/parse" None None
         (Some [("format", PStr "md"); ("cache", PBool true)])
         (Some [("file", mkPart (name input_file) data "application/octet-stream")])
         None None (Some 300).

Definition output_filename (input_file : path) : string :=
  stem input_file ++ "_parsed.md".

Definition output_path (input_file : path) : path :=
  ["data"; "outputs"; output_filename input_file].

(** What the [except] clauses make of an exception that left the body
    in state [s]. *)
Definition handle (e : exn) (s : state) : (exn + dict) * state :=
  match parse_file_handlers e with
  | Some h => h s
  | None => (inl e, s)
  end.

Definition after_glob (t : node) : state :=
  mkState t [EvGlob DATA_INPUTS].

Definition after_open (t : node) (input_file : path) : state :=
  mkState t [EvGlob DATA_INPUTS; EvOpen input_file].

Definition after_post (t : node) (input_file : path) (data : string) : state :=
  mkState t [EvGlob DATA_INPUTS; EvOpen input_file;
             EvPost (the_call input_file data)].

Definition code_of (d : dict) : pyval := dict_get_default d "code" PNone.
Definition message_of (d : dict) : pyval :=
  dict_get_default d "message" (PStr "解析失败").
Definition content_of (d : dict) : pyval := dict_get_default d "content" (PStr "").

(** The trace up to and including the [mkdir] of the output directory. *)
Definition trace_mkdir (input_file : path) (data : string) : list event :=
  [EvGlob DATA_INPUTS; EvOpen input_file; EvPost (the_call input_file data);
   EvMkdir DATA_OUTPUTS].

Definition trace_write (input_file : path) (data : string) (content : pyval)
  : list event :=
  (trace_mkdir input_file data
   ++ [EvWrite (output_path input_file) content])%list.

Inductive course (api : post_call -> exn + response) (t : node)
  : (exn + dict) * state -> Prop :=
| course_no_input :
    first_input t = None ->
    course api t (inr no_input_result, after_glob t)
| course_open_fails input_file e :
    first_input t = Some input_file ->
    read_bytes t input_file = inl e ->
    course api t (handle e (after_open t input_file))
| course_post_raises input_file data e :
    first_input t = Some input_file ->
    read_bytes t input_file = inr data ->
    api (the_call input_file data) = inl e ->
    course api t (handle e (after_post t input_file data))
| course_status_raises input_file data r e :
    first_input t = Some input_file ->
    read_bytes t input_file = inr data ->
    api (the_call input_file data) = inr r ->
    http_error_of r = Some e ->
    course api t (handle e (after_post t input_file data))
| course_json_raises input_file data r e :
    first_input t = Some input_file ->
    read_bytes t input_file = inr data ->
    api (the_call input_file data) = inr r ->
    http_error_of r = None ->
    resp_json r = inl e ->
    course api t (handle e (after_post t input_file data))
| course_not_dict input_file data r v :
    first_input t = Some input_file ->
    read_bytes t input_file = inr data ->
    api (the_call input_file data) = inr r ->
    http_error_of r = None ->
    resp_json r = inr v ->
    (forall d, v <> PDict d) ->
    course api t (handle (no_get_error v) (after_post t input_file data))
| course_parse_failed input_file data r d :
    first_input t = Some input_file ->
    read_bytes t input_file = inr data ->
    api (the_call input_file data) = inr r ->
    http_error_of r = None ->
    resp_json r = inr (PDict d) ->
    py_ne_int (code_of d) 200 = true ->
    course api t (inr (parse_failed_result (message_of d)),
                  after_post t input_file data)
| course_mkdir_fails input_file data r d e :
    first_input t = Some input_file ->
    read_bytes t input_file = inr data ->
    api (the_call input_file data) = inr r ->
    http_error_of r = None ->
    resp_json r = inr (PDict d) ->
    py_ne_int (code_of d) 200 = false ->
    mkdir true true t DATA_OUTPUTS = inl e ->
    course api t (handle e (mkState t (trace_mkdir input_file data)))
| course_write_fails input_file data r d t1 e :
    first_input t = Some input_file ->
    read_bytes t input_file = inr data ->
    api (the_call input_file data) = inr r ->
    http_error_of r = None ->
    resp_json r = inr (PDict d) ->
    py_ne_int (code_of d) 200 = false ->
    mkdir true true t DATA_OUTPUTS = inr t1 ->
    write_text t1 (output_path input_file) (content_of d) = inl e ->
    course api t
      (handle e (mkState (write_text_leaves t1 (output_path input_file) (content_of d))
                         (trace_write input_file data (content_of d))))
| course_success input_file data r d t1 t2 :
    first_input t = Some input_file ->
    read_bytes t input_file = inr data ->
    api (the_call input_file data) = inr r ->
    http_error_of r = None ->
    resp_json r = inr (PDict d) ->
    py_ne_int (code_of d) 200 = false ->
    mkdir true true t DATA_OUTPUTS = inr t1 ->
    write_text t1 (output_path input_file) (content_of d) = inr t2 ->
    course api t (inr (success_result (content_of d) (name input_file)
                                      (output_filename input_file)),
                  mkState t2 (trace_write input_file data (content_of d))).

(** The calls of [requests.post] and the files opened for reading that
    a trace records, oldest first. *)
Definition posts (tr : list event) : list post_call :=
  flat_map (fun ev => match ev with EvPost c => [c] | _ => [] end) tr.

Definition opens (tr : list event) : list path :=
  flat_map (fun ev => match ev with EvOpen p => [p] | _ => [] end) tr.

(** Events that change the file system. *)
Definition is_fs_update (ev : event) : bool :=
  match ev with
  | EvMkdir _ | EvWrite _ _ => true
  | _ => false
  end.

(** The error codes returned before the output directory is touched. *)
Definition early_error_codes : list string :=
  ["NO_INPUT_FILE"; "TIMEOUT"; "CONNECTION_ERROR"; "HTTP_ERROR"; "PARSE_FAILED"].

(** ** Sample environments *)

(** A workspace laid out as the source expects it. *)
Definition workspace : node :=
  Dir [("data",
        Dir [("inputs",
              Dir [("input", Dir [("test.pdf", File "Mock PDF content")])])])].

(** The workspace that the fixture of [tests/test_main.py] creates: the
    input file sits directly in [data/inputs]. *)
Definition fixture_workspace : node :=
  Dir [("data", Dir [("inputs", Dir [("test.pdf", File "Mock PDF content")])])].

(** Two files in the input directory. *)
Definition workspace_two_files : node :=
  Dir [("data",
        Dir [("inputs",
              Dir [("input", Dir [("b.png", File "PNG"); ("a.pdf", File "PDF")])])])].

Definition json_response (status : Z) (body : string) (j : pyval) : response :=
  mkResponse (mkInfo status body) "" "http://10.0.0.111:31475/parse?format=md&cache=True"
             (inr j).

Definition api_returns (r : response) : post_call -> exn + response :=
  fun _ => inr r.

Definition api_raises (e : exn) : post_call -> exn + response :=
  fun _ => inl e.

(** The response of [test_parse_file_success]. *)
Definition success_json : pyval :=
  PDict [("code", PInt 200); ("message", PStr "success");
         ("content", PStr "# Test Document")].

Definition workspace_outputs_is_file : node :=
  Dir [("data",
        Dir [("inputs",
              Dir [("input", Dir [("test.pdf", File "Mock PDF content")])]);
             ("outputs", File "")])].

(** The input directory lists a sub-directory before a file. *)
Definition workspace_dir_first : node :=
  Dir [("data",
        Dir [("inputs",
              Dir [("input", Dir [("sub", Dir []); ("a.pdf", File "PDF")])])])].

Definition empty_workspace : node := Dir [].

(** The workspace with a file of no concern to [parse_file] next to
    [data]. *)
Definition workspace_with_notes : node :=
  Dir [("notes.txt", File "remember");
       ("data",
        Dir [("inputs",
              Dir [("input", Dir [("test.pdf", File "Mock PDF content")])])])].

Definition timeout_exn : exn := mkExn Timeout "" None.
(** A name of 250 bytes. *)
Definition long_name : string :=
  let a10 := "aaaaaaaaaa" in
  let a50 := a10 ++ a10 ++ a10 ++ a10 ++ a10 in
  a50 ++ a50 ++ a50 ++ a50 ++ a50.

(** The text of the JSON string ["\ud800"]: one lone surrogate. *)
Definition lone_surrogate : string :=
  String (Ascii.ascii_of_nat 237)
    (String (Ascii.ascii_of_nat 160) (String (Ascii.ascii_of_nat 128) "")).

Definition connection_exn : exn := mkExn ConnectionError "" None.
Definition connect_timeout_exn : exn := mkExn ConnectTimeout "" None.
Definition keyboard_interrupt : exn := mkExn KeyboardInterrupt "" None.
Definition http_error_without_response : exn := mkExn HTTPError "" None.

(** ** Results and observations *)

(** A failure result: [success] is [False], and there are an [error]
    and an [error_code]. *)
Definition is_failure_result (d : dict) : Prop :=
  dict_get d "success" = Some (PBool false)
  /\ (exists m, dict_get d "error" = Some m)
  /\ (exists code, dict_get d "error_code" = Some (PStr code)).

(** An exception that some [except] clause turns into a result: an
    instance of [Exception], carrying its response if it is an
    [HTTPError]. *)
Definition catchable (e : exn) : bool :=
  (is_Exception (cls e)
   && (negb (is_HTTPError (cls e))
       || match exn_response e with Some _ => true | None => false end))%bool.

(** The outcome of the handlers for an exception; no state enters it. *)
Definition handler_outcome (e : exn) : exn + dict :=
  fst (handle e (mkState (Dir []) [])).

(** The outcome of the steps after the response is accepted, from the
    state of the output location. *)
Definition write_phase (st : outputs_state) (out_is_dir : bool)
           (input_file : path) (content : pyval) : exn + dict :=
  match st with
  | OutFile =>
      handler_outcome (os_error FileExistsError "[Errno 17] File exists" "data/outputs")
  | OutBlocked =>
      handler_outcome
        (os_error NotADirectoryError "[Errno 20] Not a directory" "data/outputs")
  | OutDir | OutMissing =>
      match content with
      | PStr s =>
          if Nat.ltb NAME_MAX (String.length (output_filename input_file)) then
            handler_outcome
              (os_error OSError "[Errno 36] File name too long"
                        (path_str (output_path input_file)))
          else if out_is_dir then
            handler_outcome
              (os_error IsADirectoryError "[Errno 21] Is a directory"
                        (path_str (output_path input_file)))
          else
            match utf8_encode s with
            | inr _ => inr (success_result content (name input_file)
                                           (output_filename input_file))
            | inl e => handler_outcome e
            end
      | _ => handler_outcome (not_str_error content)
      end
  end.

(** The outcome of a run as a function of what the run observes: the
    first entry of the input listing, the reading of that entry, the
    behaviour of the API, and the state of the output location. *)
Definition observed_outcome (first : option path) (read : path -> exn + string)
           (api : post_call -> exn + response)
           (st : outputs_state) (out_is_dir : path -> bool) : exn + dict :=
  match first with
  | None => inr no_input_result
  | Some input_file =>
      match read input_file with
      | inl e => handler_outcome e
      | inr data =>
          match api (the_call input_file data) with
          | inl e => handler_outcome e
          | inr r =>
              match http_error_of r with
              | Some e => handler_outcome e
              | None =>
                  match resp_json r with
                  | inl e => handler_outcome e
                  | inr (PDict d) =>
                      if py_ne_int (code_of d) 200
                      then inr (parse_failed_result (message_of d))
                      else write_phase st (out_is_dir (output_path input_file))
                                       input_file (content_of d)
                  | inr v => handler_outcome (no_get_error v)
                  end
              end
          end
      end
  end.

(** The paths below [data/inputs] resolve alike in both trees. *)
Definition same_inputs (t t' : node) : Prop :=
  forall q, resolve t' ("data" :: "inputs" :: q) = resolve t ("data" :: "inputs" :: q).

(** ** Vocabulary of the further properties *)

(** All the error codes of the source. *)
Definition error_codes : list string :=
  ["NO_INPUT_FILE"; "PARSE_FAILED"; "TIMEOUT"; "CONNECTION_ERROR"; "HTTP_ERROR";
   "UNEXPECTED_ERROR"].

(** The exception comes from the environment of the run: the post
    raised it, or the decoding of the body of a response did. *)
Definition api_raised (api : post_call -> exn + response) (e : exn) : Prop :=
  (exists c, api c = inl e) \/ (exists c r, api c = inr r /\ resp_json r = inl e).

(** The [AttributeError] of the [HTTPError] clause for an exception
    without a response. *)
Definition no_status_code_error : exn :=
  mkExn AttributeError "'NoneType' object has no attribute 'status_code'" None.

(** [p] is a prefix of [q], component by component. *)
Fixpoint is_prefix (p q : path) : bool :=
  match p, q with
  | [], _ => true
  | _ :: _, [] => false
  | a :: p', b :: q' => (String.eqb a b && is_prefix p' q')%bool
  end.

(** The file system after the [mkdir] of the output directory and the
    write of the output file, whether they succeed or not. *)
Definition write_step (out : path) (content : pyval) (t : node) : node :=
  match mkdir true true t DATA_OUTPUTS with
  | inr t1 =>
      match write_text t1 out content with
      | inr t2 => t2
      | inl _ => write_text_leaves t1 out content
      end
  | inl _ => t
  end.

(** The file system a run leaves, read off the steps of the source:
    only a run that is answered with code 200 reaches the write step. *)
Definition written (api : post_call -> exn + response) (t : node) : node :=
  match first_input t with
  | Some input_file =>
      match read_bytes t input_file with
      | inr data =>
          match api (the_call input_file data) with
          | inr r =>
              match http_error_of r, resp_json r with
              | None, inr (PDict j) =>
                  if py_ne_int (code_of j) 200 then t
                  else write_step (output_path input_file) (content_of j) t
              | _, _ => t
              end
          | inl _ => t
          end
      | inl _ => t
      end
  | None => t
  end.

(** The string has a ['.']. *)
Fixpoint has_dot (s : string) : bool :=
  match s with
  | EmptyString => false
  | String a s' => (Ascii.eqb a "."%char || has_dot s')%bool
  end.

(** ** The test module [tests/test_main.py] *)

(** Remove the entry named [c] from a listing. *)
Fixpoint remove_entry (c : string) (es : list (string * node))
  : list (string * node) :=
  match es with
  | [] => []
  | (k, n) :: es' =>
      if String.eqb k c then es' else (k, n) :: remove_entry c es'
  end.

(** The tree without the node at [p]. *)
Fixpoint del (p : path) (n : node) : node :=
  match p with
  | [] => n
  | c :: p' =>
      match n with
      | File _ => n
      | Dir es =>
          match p' with
          | [] => Dir (remove_entry c es)
          | _ :: _ => Dir (map_entry c (del p') es)
          end
      end
  end.

(** [Path.unlink()]: removes a file; a directory is refused. *)
Definition unlink (t : node) (p : path) : exn + node :=
  match resolve t p with
  | Found (File _) => inr (del p t)
  | Found (Dir _) =>
      inl (os_error IsADirectoryError "[Errno 21] Is a directory" (path_str p))
  | NoEnt =>
      inl (os_error FileNotFoundError "[Errno 2] No such file or directory" (path_str p))
  | NotDir =>
      inl (os_error NotADirectoryError "[Errno 20] Not a directory" (path_str p))
  end.

(** [for f in ps: f.unlink()] *)
Fixpoint unlink_all (t : node) (ps : list path) : exn + node :=
  match ps with
  | [] => inr t
  | p :: ps' =>
      match unlink t p with
      | inr t' => unlink_all t' ps'
      | inl e => inl e
      end
  end.

(** [Path.write_bytes(data)]: the file is created or truncated and the
    bytes written. *)
Definition write_bytes (t : node) (p : path) (data : string) : exn + node :=
  match open_w t p with
  | inr t' => inr (put p (File data) t')
  | inl e => inl e
  end.

(** The [workspace] fixture, from the empty directory that [mkdtemp]
    makes: [data/inputs] is made with its parents and [test.pdf] is
    written into it; the tests then run with that directory as the
    working directory. *)
Definition workspace_fixture : exn + node :=
  match mkdir true false (Dir []) ["data"; "inputs"] with
  | inr t => write_bytes t ["data"; "inputs"; "test.pdf"] "Mock PDF content"
  | inl e => inl e
  end.

(** [needle in hay] for two strings. *)
Fixpoint contains (needle hay : string) : bool :=
  (String.prefix needle hay
   || match hay with
      | EmptyString => false
      | String _ hay' => contains needle hay'
      end)%bool.

(** The assertions of the tests on [result[k]]; a missing key makes the
    test fail as the [KeyError] does. *)
Definition item_is (d : dict) (k : string) (b : bool) : bool :=
  match dict_get d k with
  | Some (PBool b') => Bool.eqb b' b
  | _ => false
  end.

Definition item_eq (d : dict) (k : string) (s : string) : bool :=
  match dict_get d k with
  | Some (PStr s') => String.eqb s' s
  | _ => false
  end.

Definition item_has (d : dict) (k : string) (needle : string) : bool :=
  match dict_get d k with
  | Some (PStr s') => contains needle s'
  | _ => false
  end.

Definition newline : string := String (Ascii.ascii_of_nat 10) "".

(** The mocked responses of the tests: a [Mock] whose [json()] returns
    the given object; its [raise_for_status()] raises only where the
    test makes it. *)
Definition mock_success : response :=
  json_response 200 ""
    (PDict [("code", PInt 200); ("message", PStr "success");
            ("content", PStr ("# Test Document" ++ newline ++ newline
                              ++ "This is a test."))]).

Definition mock_api_error : response :=
  json_response 200 ""
    (PDict [("code", PInt 500); ("message", PStr "Internal server error")]).

Definition mock_not_found : response :=
  json_response 404 "Not Found" PNone.

Definition test_parse_file_success (workspace : node) : bool :=
  let res := run (api_returns mock_success) workspace in
  match fst res with
  | inr result =>
      (item_is result "success" true
       && item_eq result "message" "文件解析成功"
       && item_has result "content" "# Test Document"
       && item_eq result "input_file" "test.pdf"
       && item_eq result "output_file" "test_parsed.md"
       && let output_files := glob_star (fs (snd res)) ["data"; "outputs"] in
          (Nat.eqb (List.length output_files) 1
           && match output_files with
              | f :: _ =>
                  String.eqb (name f) "test_parsed.md"
                  && match read_bytes (fs (snd res)) f with
                     | inr s => contains "# Test Document" s
                     | inl _ => false
                     end
              | [] => false
              end))%bool
  | inl _ => false
  end.

(** This test does not patch [requests.post]: [network] is the real
    behaviour of the API. *)
Definition test_parse_file_no_input (network : post_call -> exn + response)
           (workspace : node) : bool :=
  match unlink_all workspace (glob_star workspace ["data"; "inputs"]) with
  | inr workspace' =>
      match outcome network workspace' with
      | inr result =>
          (item_is result "success" false
           && item_eq result "error_code" "NO_INPUT_FILE"
           && item_has result "error" "未找到输入文件")%bool
      | inl _ => false
      end
  | inl _ => false
  end.

Definition test_parse_file_api_error (workspace : node) : bool :=
  match outcome (api_returns mock_api_error) workspace with
  | inr result =>
      (item_is result "success" false
       && item_eq result "error_code" "PARSE_FAILED"
       && item_has result "error" "Internal server error")%bool
  | inl _ => false
  end.

Definition test_parse_file_timeout (workspace : node) : bool :=
  match outcome (api_raises timeout_exn) workspace with
  | inr result =>
      (item_is result "success" false
       && item_eq result "error_code" "TIMEOUT"
       && item_has result "error" "超时")%bool
  | inl _ => false
  end.

Definition test_parse_file_connection_error (workspace : node) : bool :=
  match outcome (api_raises connection_exn) workspace with
  | inr result =>
      (item_is result "success" false
       && item_eq result "error_code" "CONNECTION_ERROR"
       && item_has result "error" "无法连接")%bool
  | inl _ => false
  end.

Definition test_parse_file_http_error (workspace : node) : bool :=
  match outcome (api_returns mock_not_found) workspace with
  | inr result =>
      (item_is result "success" false
       && item_eq result "error_code" "HTTP_ERROR"
       && item_has result "error" "HTTP 错误")%bool
  | inl _ => false
  end.

(** A response whose body is not JSON. *)
Definition html_response : response :=
  mkResponse (mkInfo 200 "<html>Bad gateway</html>") "OK"
             "http://10.0.0.111:31475/parse?format=md&cache=True"
             (inl (mkExn JSONDecodeError
                         "Expecting value: line 1 column 1 (char 0)" None)).

(** * Properties *)

(** ** Directory listings *)

Lemma entry_set_entry c v es : entry c (set_entry c v es) = Some v.
Proof.
  induction es as [|[k n] es IH]; simpl.
  - now rewrite String.eqb_refl.
  - destruct (String.eqb k c) eqn:E; simpl; now rewrite E.
Qed.

Lemma entry_map_entry c f es :
  entry c (map_entry c f es) = option_map f (entry c es).
Proof.
  induction es as [|[k n] es IH]; simpl; [reflexivity|].
  destruct (String.eqb k c) eqn:E; simpl; now rewrite E.
Qed.

Lemma entry_set_entry_other c c' v es :
  c <> c' -> entry c' (set_entry c v es) = entry c' es.
Proof.
  intros Hne. induction es as [|[k n] es IH]; simpl.
  - destruct (String.eqb_spec c c'); [contradiction | reflexivity].
  - destruct (String.eqb_spec k c) as [->|Hk]; simpl.
    + destruct (String.eqb_spec c c'); [contradiction | reflexivity].
    + now rewrite IH.
Qed.

Lemma entry_map_entry_other c c' f es :
  c <> c' -> entry c' (map_entry c f es) = entry c' es.
Proof.
  intros Hne. induction es as [|[k n] es IH]; simpl; [reflexivity|].
  destruct (String.eqb_spec k c) as [->|Hk]; simpl.
  - destruct (String.eqb_spec c c'); [contradiction | reflexivity].
  - now rewrite IH.
Qed.

(** ** Installing a node *)

(** After [put], the path resolves to the node installed, provided its
    parent was a directory. *)
Lemma resolve_put p : forall v t es,
  p <> [] ->
  resolve t (parent p) = Found (Dir es) ->
  resolve (put p v t) p = Found v.
Proof.
  induction p as [|c p IH]; intros v t es Hne Hpar; [congruence|].
  destruct p as [|c' p'].
  - simpl in Hpar. injection Hpar as ->. simpl.
    now rewrite entry_set_entry.
  - change (parent (c :: c' :: p')) with (c :: parent (c' :: p')) in Hpar.
    destruct t as [d|es0]; [discriminate|].
    cbn [resolve] in Hpar.
    destruct (entry c es0) as [n'|] eqn:E; [|discriminate].
    cbn [put resolve]. rewrite entry_map_entry, E. simpl option_map. cbv iota.
    apply (IH v n' es); [discriminate | exact Hpar].
Qed.

(** Two paths that part at some component: [put] at one leaves the
    resolution of the other alone. *)
Lemma resolve_put_diverge r : forall a b p q v t,
  a <> b ->
  resolve (put (r ++ a :: p)%list v t) (r ++ b :: q)%list
  = resolve t (r ++ b :: q)%list.
Proof.
  induction r as [|c r IH]; intros a b p q v t Hab; simpl.
  - destruct t as [d|es]; [reflexivity|].
    destruct p; simpl.
    + now rewrite entry_set_entry_other.
    + now rewrite entry_map_entry_other.
  - destruct t as [d|es]; [reflexivity|].
    destruct (r ++ a :: p)%list eqn:Er; [now destruct r|]. rewrite <- Er.
    simpl. rewrite entry_map_entry.
    destruct (entry c es); simpl; [apply IH; assumption | reflexivity].
Qed.

(** ** Creating directories and writing files *)

Lemma os_mkdir_raises t p e : os_mkdir t p = inl e -> is_OSError (cls e) = true.
Proof.
  unfold os_mkdir. destruct p; [intros [= <-]; reflexivity|].
  destruct (resolve t (parent (s :: p))) as [[d|es]| |].
  - intros [= <-]; reflexivity.
  - destruct (entry _ es); [intros [= <-]; reflexivity | discriminate].
  - intros [= <-]; reflexivity.
  - intros [= <-]; reflexivity.
Qed.

Lemma mkdir_fuel_raises fuel : forall parents exist_ok t p e,
  mkdir_fuel fuel parents exist_ok t p = inl e -> is_OSError (cls e) = true.
Proof.
  induction fuel as [|fuel IH]; intros parents exist_ok t p e; simpl;
    destruct (os_mkdir t p) as [e0|t'] eqn:Eos; try discriminate;
    pose proof (os_mkdir_raises _ _ _ Eos) as Hos.
  - destruct (cls e0) eqn:Ec; try discriminate Hos;
      try (destruct (exist_ok && is_dir t p)%bool; [discriminate|]);
      intros [= <-]; rewrite Ec; reflexivity.
  - destruct (cls e0) eqn:Ec; try discriminate Hos;
      try (destruct (exist_ok && is_dir t p)%bool; [discriminate|];
           intros [= <-]; rewrite Ec; reflexivity).
    destruct parents; [|intros [= <-]; rewrite Ec; reflexivity].
    destruct p; [intros [= <-]; rewrite Ec; reflexivity|].
    destruct (mkdir_fuel fuel true true t (parent (s :: p))) as [e1|t1] eqn:E1.
    + intros [= <-]. eapply IH; eassumption.
    + apply IH.
Qed.

(** A directory that [mkdir] reports made is a directory afterwards. *)
Lemma mkdir_fuel_is_dir fuel : forall parents exist_ok t p t',
  mkdir_fuel fuel parents exist_ok t p = inr t' -> is_dir t' p = true.
Proof.
  assert (Hos : forall t p t', os_mkdir t p = inr t' -> is_dir t' p = true).
  { intros t p t'. unfold os_mkdir. destruct p as [|c p]; [discriminate|].
    destruct (resolve t (parent (c :: p))) as [[d|es]| |] eqn:Er; try discriminate.
    destruct (entry _ es); [discriminate|]. intros [= <-].
    pose proof (resolve_put (c :: p) (Dir []) t es ltac:(discriminate) Er) as H.
    unfold is_dir. cbn [put] in H |- *. now rewrite H. }
  induction fuel as [|fuel IH]; intros parents exist_ok t p t'; simpl;
    destruct (os_mkdir t p) as [e0|t0] eqn:Eos;
    try (intros [= <-]; eapply Hos; eassumption).
  - destruct (cls e0); try discriminate;
      (destruct exist_ok; simpl; [|discriminate]);
      destruct (is_dir t p) eqn:Ed; try discriminate; intros [= <-]; assumption.
  - destruct (cls e0);
      try (destruct exist_ok; simpl; [|discriminate];
           destruct (is_dir t p) eqn:Ed; try discriminate;
           intros [= <-]; assumption).
    destruct parents; [|discriminate]. destruct p; [discriminate|].
    destruct (mkdir_fuel fuel true true t (parent (s :: p))); [discriminate|].
    apply IH.
Qed.

(** One unfolding of [mkdir_fuel]. *)
Lemma mkdir_fuel_eq fuel parents exist_ok t p :
  mkdir_fuel fuel parents exist_ok t p =
  match os_mkdir t p with
  | inr fs' => inr fs'
  | inl e =>
      match cls e with
      | FileNotFoundError =>
          match fuel, parents, p with
          | S fuel', true, _ :: _ =>
              match mkdir_fuel fuel' true true t (parent p) with
              | inl e' => inl e'
              | inr fs1 => mkdir_fuel fuel' false exist_ok fs1 p
              end
          | _, _, _ => inl e
          end
      | _ => if (exist_ok && is_dir t p)%bool then inr t else inl e
      end
  end.
Proof. destruct fuel; reflexivity. Qed.

(** The fuel of [mkdir_fuel] only bounds the walk up the parents: without
    [parents] it is not used, and any fuel that covers the length of the
    path gives the same answer. *)
Lemma mkdir_fuel_no_parents n m exist_ok t p :
  mkdir_fuel n false exist_ok t p = mkdir_fuel m false exist_ok t p.
Proof.
  rewrite (mkdir_fuel_eq n), (mkdir_fuel_eq m).
  destruct (os_mkdir t p) as [e|t']; [|reflexivity].
  destruct (cls e); try reflexivity. now destruct n, m.
Qed.

Lemma mkdir_fuel_enough n : forall m parents exist_ok t p,
  (List.length p <= n)%nat -> (List.length p <= m)%nat ->
  mkdir_fuel n parents exist_ok t p = mkdir_fuel m parents exist_ok t p.
Proof.
  induction n as [|n IH]; intros m parents exist_ok t p Hn Hm;
    rewrite (mkdir_fuel_eq _ parents), (mkdir_fuel_eq m parents);
    destruct (os_mkdir t p) as [e|t']; try reflexivity;
    destruct (cls e); try reflexivity.
  - destruct p; [|simpl in Hn; lia]. now destruct m, parents.
  - destruct parents; [|now destruct m].
    destruct p as [|c p]; [now destruct m|].
    destruct m as [|m]; [simpl in Hm; lia|].
    assert (Hlen : List.length (parent (c :: p)) = List.length p).
    { unfold parent. rewrite removelast_firstn_len, length_firstn.
      simpl. lia. }
    rewrite (IH m true true t (parent (c :: p)))
      by (rewrite Hlen; simpl in Hn, Hm; lia).
    destruct (mkdir_fuel m true true t (parent (c :: p))); [reflexivity|].
    apply mkdir_fuel_no_parents.
Qed.

Ltac crunch :=
  repeat (progress (simpl; unfold is_dir, name, parent;
                    repeat match goal with
                           | H : entry _ _ = _ |- _ => rewrite H
                           end;
                    rewrite ?entry_map_entry, ?entry_set_entry)).

(** What [DATA_OUTPUTS.mkdir(parents=True, exist_ok=True)] does in each
    state of the output location. *)
Lemma mkdir_outputs t :
  match outputs_state_of t with
  | OutDir => mkdir true true t DATA_OUTPUTS = inr t
  | OutMissing =>
      exists t', mkdir true true t DATA_OUTPUTS = inr t'
                 /\ resolve t' DATA_OUTPUTS = Found (Dir [])
  | OutFile =>
      mkdir true true t DATA_OUTPUTS
      = inl (os_error FileExistsError "[Errno 17] File exists" "data/outputs")
  | OutBlocked =>
      mkdir true true t DATA_OUTPUTS
      = inl (os_error NotADirectoryError "[Errno 20] Not a directory" "data/outputs")
  end.
Proof.
  unfold outputs_state_of, mkdir, DATA_OUTPUTS.
  change (List.length ["data"; "outputs"]) with 2%nat.
  destruct t as [d|es]; [reflexivity|].
  cbn [resolve].
  destruct (entry "data" es) as [[d|es1]|] eqn:E1; cbn [resolve].
  - crunch. reflexivity.
  - destruct (entry "outputs" es1) as [[d|es2]|] eqn:E2.
    + crunch. reflexivity.
    + crunch. reflexivity.
    + crunch. eexists; split; [reflexivity|]. crunch. reflexivity.
  - crunch. eexists; split; [reflexivity|]. crunch. reflexivity.
Qed.

(** Installing a node where one was just installed replaces it. *)
Lemma set_entry_set_entry c v w es :
  set_entry c v (set_entry c w es) = set_entry c v es.
Proof.
  induction es as [|[k n] es IH]; simpl.
  - now rewrite String.eqb_refl.
  - destruct (String.eqb k c) eqn:E; simpl; rewrite E; [reflexivity|].
    now rewrite IH.
Qed.

Lemma map_entry_map_entry c f g es :
  (forall n, f (g n) = f n) ->
  map_entry c f (map_entry c g es) = map_entry c f es.
Proof.
  intros Hf. induction es as [|[k n] es IH]; simpl; [reflexivity|].
  destruct (String.eqb k c) eqn:E; simpl; rewrite E; [now rewrite Hf|].
  now rewrite IH.
Qed.

Lemma put_put p : forall v w t, put p v (put p w t) = put p v t.
Proof.
  induction p as [|c p IH]; intros v w t; [reflexivity|].
  destruct t as [x|es]; [reflexivity|].
  destruct p as [|c' p'].
  - simpl. now rewrite set_entry_set_entry.
  - cbn [put].
    now rewrite map_entry_map_entry by (intros n; apply IH).
Qed.

Lemma open_w_raises t p e : open_w t p = inl e -> is_OSError (cls e) = true.
Proof.
  unfold open_w. destruct p as [|c p]; [intros [= <-]; reflexivity|].
  destruct (resolve t (parent (c :: p))) as [[d|es]| |];
    try (intros [= <-]; reflexivity).
  destruct (Nat.ltb NAME_MAX _); [intros [= <-]; reflexivity|].
  destruct (entry _ es) as [[d|es']|]; try discriminate.
  intros [= <-]; reflexivity.
Qed.

Lemma utf8_encode_raises s e : utf8_encode s = inl e -> cls e = UnicodeEncodeError.
Proof.
  unfold utf8_encode. destruct (first_surrogate 0 s) as [[[pos cp] run]|];
    [|discriminate].
  intros [= <-]. reflexivity.
Qed.

Lemma utf8_encode_bytes s b : utf8_encode s = inr b -> b = s.
Proof.
  unfold utf8_encode. destruct (first_surrogate 0 s) as [[[pos cp] run]|];
    [discriminate|].
  now intros [= <-].
Qed.

Lemma OSError_is_builtin c : is_OSError c = true -> is_builtin c = true.
Proof. destruct c; intros H; try discriminate; reflexivity. Qed.

Lemma write_text_raises t p data e :
  write_text t p data = inl e -> is_builtin (cls e) = true.
Proof.
  unfold write_text.
  destruct data; try (intros [= <-]; reflexivity).
  destruct (open_w t p) as [e0|t'] eqn:Ho.
  - intros [= <-]. apply open_w_raises in Ho. unfold is_builtin.
    destruct (cls e0); try discriminate; reflexivity.
  - destruct (utf8_encode s) as [e0|b] eqn:Hu; [|discriminate].
    intros [= <-]. now rewrite (utf8_encode_raises _ _ Hu).
Qed.

Lemma put_cons c p v es :
  p <> [] -> put (c :: p) v (Dir es) = Dir (map_entry c (put p v) es).
Proof. destruct p; [congruence | reflexivity]. Qed.

(** Installing a child leaves its directory a directory. *)
Lemma is_dir_put_child d : forall t nm v es,
  resolve t d = Found (Dir es) ->
  is_dir (put (d ++ [nm])%list v t) d = true.
Proof.
  unfold is_dir.
  induction d as [|c d IH]; intros t nm v es Hd.
  - simpl in Hd. injection Hd as ->. reflexivity.
  - destruct t as [x|es0]; [discriminate|].
    cbn [resolve] in Hd.
    destruct (entry c es0) as [n|] eqn:E; [|discriminate].
    change ((c :: d) ++ [nm])%list with (c :: (d ++ [nm]))%list.
    rewrite put_cons by (now destruct d).
    cbn [resolve]. rewrite entry_map_entry, E. simpl option_map. cbv iota.
    eapply IH; eassumption.
Qed.

Lemma open_w_eq t p :
  p <> [] ->
  open_w t p =
  match resolve t (parent p) with
  | Found (Dir es) =>
      if Nat.ltb NAME_MAX (String.length (name p)) then
        inl (os_error OSError "[Errno 36] File name too long" (path_str p))
      else
        match entry (name p) es with
        | Some (Dir _) =>
            inl (os_error IsADirectoryError "[Errno 21] Is a directory" (path_str p))
        | _ => inr (put p (File "") t)
        end
  | Found (File _) | NotDir =>
      inl (os_error NotADirectoryError "[Errno 20] Not a directory" (path_str p))
  | NoEnt =>
      inl (os_error FileNotFoundError "[Errno 2] No such file or directory" (path_str p))
  end.
Proof. destruct p; [congruence | reflexivity]. Qed.

(** [write_text] of a string, step by step: the parent, the length of
    the name, the entry, the encoding. *)
Lemma write_text_str t p s :
  p <> [] ->
  write_text t p (PStr s) =
  match resolve t (parent p) with
  | Found (Dir es) =>
      if Nat.ltb NAME_MAX (String.length (name p)) then
        inl (os_error OSError "[Errno 36] File name too long" (path_str p))
      else
        match entry (name p) es with
        | Some (Dir _) =>
            inl (os_error IsADirectoryError "[Errno 21] Is a directory" (path_str p))
        | _ =>
            match utf8_encode s with
            | inr bytes => inr (put p (File bytes) t)
            | inl e => inl e
            end
        end
  | Found (File _) | NotDir =>
      inl (os_error NotADirectoryError "[Errno 20] Not a directory" (path_str p))
  | NoEnt =>
      inl (os_error FileNotFoundError "[Errno 2] No such file or directory" (path_str p))
  end.
Proof.
  intros Hp. unfold write_text. rewrite (open_w_eq t p Hp).
  destruct (resolve t (parent p)) as [[x|es]| |]; try reflexivity.
  destruct (Nat.ltb NAME_MAX _); [reflexivity|].
  destruct (entry (name p) es) as [[x|es']|]; try reflexivity;
    destruct (utf8_encode s); try reflexivity; now rewrite put_put.
Qed.

(** ** The course of one invocation *)

Ltac unfold_run :=
  cbv beta iota zeta delta
    [run parse_file try_except parse_file_body bind glob open_rb
     requests_post raise_for_status response_json path_mkdir
     path_write_text py_get log lift_fs update_fs ret raise fs trace app].

Section Course.

Variable api : post_call -> exn + response.
Variable t : node.

Lemma run_no_input :
  first_input t = None ->
  run api t = (inr no_input_result, after_glob t).
Proof.
  unfold first_input. intros H. unfold_run.
  destruct (glob_star t DATA_INPUTS); [reflexivity | discriminate].
Qed.

Variable input_file : path.
Hypothesis Hfirst : first_input t = Some input_file.

Lemma run_open_fails e :
  read_bytes t input_file = inl e ->
  run api t = handle e (after_open t input_file).
Proof.
  unfold first_input in Hfirst. intros H. unfold_run.
  destruct (glob_star t DATA_INPUTS); [discriminate|].
  injection Hfirst as ->. rewrite H. reflexivity.
Qed.

Variable data : string.
Hypothesis Hread : read_bytes t input_file = inr data.

Lemma run_post_raises e :
  api (the_call input_file data) = inl e ->
  run api t = handle e (after_post t input_file data).
Proof.
  unfold first_input in Hfirst. intros H. unfold_run.
  destruct (glob_star t DATA_INPUTS); [discriminate|].
  injection Hfirst as ->. rewrite Hread.
  change (mkCall _ _ _ _ _ _ _ _) with (the_call input_file data).
  rewrite H. reflexivity.
Qed.

Variable r : response.
Hypothesis Hpost : api (the_call input_file data) = inr r.

Lemma run_status_raises e :
  http_error_of r = Some e ->
  run api t = handle e (after_post t input_file data).
Proof.
  unfold first_input in Hfirst. intros H. unfold_run.
  destruct (glob_star t DATA_INPUTS); [discriminate|].
  injection Hfirst as ->. rewrite Hread.
  change (mkCall _ _ _ _ _ _ _ _) with (the_call input_file data).
  rewrite Hpost, H. reflexivity.
Qed.

Hypothesis Hstatus : http_error_of r = None.

Lemma run_json_raises e :
  resp_json r = inl e ->
  run api t = handle e (after_post t input_file data).
Proof.
  unfold first_input in Hfirst. intros H. unfold_run.
  destruct (glob_star t DATA_INPUTS); [discriminate|].
  injection Hfirst as ->. rewrite Hread.
  change (mkCall _ _ _ _ _ _ _ _) with (the_call input_file data).
  rewrite Hpost, Hstatus, H. reflexivity.
Qed.

Lemma run_not_dict v :
  resp_json r = inr v ->
  (forall d, v <> PDict d) ->
  run api t = handle (no_get_error v) (after_post t input_file data).
Proof.
  unfold first_input in Hfirst. intros H Hv. unfold_run.
  destruct (glob_star t DATA_INPUTS); [discriminate|].
  injection Hfirst as ->. rewrite Hread.
  change (mkCall _ _ _ _ _ _ _ _) with (the_call input_file data).
  rewrite Hpost, Hstatus, H.
  destruct v as [| | | | | |dd]; try reflexivity.
  now destruct (Hv dd).
Qed.

Variable d : dict.
Hypothesis Hjson : resp_json r = inr (PDict d).

Lemma run_parse_failed :
  py_ne_int (dict_get_default d "code" PNone) 200 = true ->
  run api t =
  (inr (parse_failed_result (dict_get_default d "message" (PStr "解析失败"))),
   after_post t input_file data).
Proof.
  unfold first_input in Hfirst. intros H. unfold_run.
  destruct (glob_star t DATA_INPUTS); [discriminate|].
  injection Hfirst as ->. rewrite Hread.
  change (mkCall _ _ _ _ _ _ _ _) with (the_call input_file data).
  rewrite Hpost, Hstatus, Hjson. cbv beta iota.
  rewrite H. reflexivity.
Qed.

Hypothesis Hcode : py_ne_int (dict_get_default d "code" PNone) 200 = false.

Lemma run_code_200 :
  let content := dict_get_default d "content" (PStr "") in
  let tr := [EvGlob DATA_INPUTS; EvOpen input_file;
             EvPost (the_call input_file data); EvMkdir DATA_OUTPUTS] in
  let out := output_path input_file in
  run api t =
  match mkdir true true t DATA_OUTPUTS with
  | inl e => handle e (mkState t tr)
  | inr t1 =>
      match write_text t1 out content with
      | inl e => handle e (mkState (write_text_leaves t1 out content)
                                   (tr ++ [EvWrite out content]))
      | inr t2 =>
          (inr (success_result content (name input_file)
                               (output_filename input_file)),
           mkState t2 (tr ++ [EvWrite out content]))
      end
  end.
Proof.
  unfold first_input in Hfirst. intros content tr out. unfold_run.
  destruct (glob_star t DATA_INPUTS); [discriminate|].
  injection Hfirst as ->. rewrite Hread.
  change (mkCall _ _ _ _ _ _ _ _) with (the_call input_file data).
  rewrite Hpost, Hstatus, Hjson. cbv beta iota.
  rewrite Hcode. cbv beta iota zeta delta [bind fs trace app].
  destruct (mkdir true true t DATA_OUTPUTS) as [e|t1]; [reflexivity|].
  cbv beta iota zeta delta [bind fs trace app].
  match goal with
  | |- context [write_text ?a ?b ?c] =>
      change (write_text a b c) with (write_text t1 out content)
  end.
  match goal with
  | |- context [write_text_leaves ?a ?b ?c] =>
      change (write_text_leaves a b c) with (write_text_leaves t1 out content)
  end.
  destruct (write_text t1 out content) as [e|t2]; reflexivity.
Qed.

End Course.

(** ** The handlers *)

Lemma handle_Timeout e s :
  is_Timeout (cls e) = true -> handle e s = (inr timeout_result, s).
Proof. unfold handle, parse_file_handlers. now intros ->. Qed.

Lemma handle_ConnectionError e s :
  is_Timeout (cls e) = false ->
  is_ConnectionError (cls e) = true ->
  handle e s = (inr connection_error_result, s).
Proof. unfold handle, parse_file_handlers. now intros -> ->. Qed.

Lemma handle_HTTPError e s info :
  cls e = HTTPError ->
  exn_response e = Some info ->
  handle e s = (inr (http_error_result info), s).
Proof. unfold handle, parse_file_handlers. now intros -> ->. Qed.

Lemma handle_other e s :
  is_Timeout (cls e) = false ->
  is_ConnectionError (cls e) = false ->
  is_HTTPError (cls e) = false ->
  is_Exception (cls e) = true ->
  handle e s = (inr (unexpected_error_result e), s).
Proof. unfold handle, parse_file_handlers. now intros -> -> -> ->. Qed.

Lemma handle_builtin e s :
  is_builtin (cls e) = true ->
  handle e s = (inr (unexpected_error_result e), s).
Proof.
  intros H. apply handle_other; destruct (cls e); try reflexivity;
    discriminate.
Qed.

(** No handler touches the file system or issues a request. *)
Lemma handle_state e s : snd (handle e s) = s.
Proof.
  unfold handle, parse_file_handlers.
  destruct (is_Timeout (cls e)); [reflexivity|].
  destruct (is_ConnectionError (cls e)); [reflexivity|].
  destruct (is_HTTPError (cls e)).
  - destruct (exn_response e); reflexivity.
  - destruct (is_Exception (cls e)); reflexivity.
Qed.

(** The error raised for a status in 400..599 carries the response. *)
Lemma http_error_of_Some r e :
  http_error_of r = Some e ->
  cls e = HTTPError /\ exn_response e = Some (resp_info r)
  /\ 400 <= status_code (resp_info r) < 600.
Proof.
  unfold http_error_of.
  destruct (400 <=? _) eqn:E1; destruct (_ <? 500) eqn:E2; simpl.
  1: intros [= <-]; simpl; repeat split; lia.
  all: destruct (500 <=? _) eqn:E3; destruct (_ <? 600) eqn:E4; simpl;
    try discriminate; intros [= <-]; simpl; repeat split; lia.
Qed.

Lemma http_error_of_status r :
  400 <= status_code (resp_info r) < 600 ->
  exists e, http_error_of r = Some e.
Proof.
  intros H. unfold http_error_of.
  destruct (Z.ltb_spec (status_code (resp_info r)) 500).
  - replace (400 <=? _) with true by (symmetry; apply Z.leb_le; lia).
    simpl. eauto.
  - replace (400 <=? _) with true by (symmetry; apply Z.leb_le; lia).
    simpl.
    replace (500 <=? _) with true by (symmetry; apply Z.leb_le; lia).
    replace (_ <? 600) with true by (symmetry; apply Z.ltb_lt; lia).
    simpl. eauto.
Qed.

(** ** Every invocation follows one of ten courses *)

(** [parse_file] is total, and its run is one of the courses. *)
Lemma run_course api t : course api t (run api t).
Proof.
  destruct (first_input t) as [input_file|] eqn:Hfirst.
  2: { rewrite run_no_input by assumption. now constructor. }
  destruct (read_bytes t input_file) as [e|data] eqn:Hread.
  { erewrite run_open_fails by eassumption. now constructor. }
  destruct (api (the_call input_file data)) as [e|r] eqn:Hpost.
  { erewrite run_post_raises by eassumption. now constructor. }
  destruct (http_error_of r) as [e|] eqn:Hstatus.
  { erewrite run_status_raises by eassumption. econstructor; eassumption. }
  destruct (resp_json r) as [e|v] eqn:Hjson.
  { erewrite run_json_raises by eassumption. econstructor; eassumption. }
  assert (Hv : (exists d, v = PDict d) \/ forall d, v <> PDict d).
  { destruct v; try (right; discriminate). left; eauto. }
  destruct Hv as [[d ->]|Hv].
  2: { rewrite (run_not_dict api t input_file Hfirst data Hread r Hpost
                             Hstatus v Hjson Hv).
       eapply course_not_dict; eassumption. }
  destruct (py_ne_int (code_of d) 200) eqn:Hcode.
  { erewrite run_parse_failed by eassumption. econstructor; eassumption. }
  pose proof (run_code_200 api t input_file Hfirst data Hread r Hpost Hstatus
                           d Hjson Hcode) as Hrun.
  cbv zeta in Hrun. rewrite Hrun.
  destruct (mkdir true true t DATA_OUTPUTS) as [e|t1] eqn:Hmk.
  { eapply course_mkdir_fails; eassumption. }
  fold (content_of d).
  destruct (write_text t1 (output_path input_file) (content_of d)) as [e|t2] eqn:Hw.
  - eapply course_write_fails; eassumption.
  - eapply course_success; eassumption.
Qed.


(** ** What the handlers return *)

Lemma handle_cases e s :
  handle e s = (inr timeout_result, s)
  \/ handle e s = (inr connection_error_result, s)
  \/ (exists info, handle e s = (inr (http_error_result info), s))
  \/ handle e s = (inr (unexpected_error_result e), s)
  \/ (exists e', handle e s = (inl e', s)).
Proof.
  unfold handle, parse_file_handlers.
  destruct (is_Timeout (cls e)); [now left|].
  destruct (is_ConnectionError (cls e)); [now right; left|].
  destruct (is_HTTPError (cls e)).
  - destruct (exn_response e) as [info|].
    + right; right; left. now exists info.
    + right; right; right; right. eexists. reflexivity.
  - destruct (is_Exception (cls e)).
    + now right; right; right; left.
    + right; right; right; right. eexists. reflexivity.
Qed.

Lemma events_handle api t e s :
  run api t = handle e s -> events api t = trace s /\ final_fs api t = fs s.
Proof.
  unfold events, final_fs. intros ->. now rewrite handle_state.
Qed.

(** The trace of a run, course by course. *)
Lemma events_course api t :
  match first_input t with
  | None => events api t = [EvGlob DATA_INPUTS]
  | Some input_file =>
      match read_bytes t input_file with
      | inl _ => events api t = [EvGlob DATA_INPUTS; EvOpen input_file]
      | inr data =>
          exists rest,
            events api t
            = ([EvGlob DATA_INPUTS; EvOpen input_file;
                EvPost (the_call input_file data)] ++ rest)%list
            /\ forallb is_fs_update rest = true
      end
  end.
Proof.
  unfold events.
  destruct (run_course api t);
    repeat match goal with
           | H : first_input t = _ |- _ => rewrite H; clear H
           | H : read_bytes t _ = _ |- _ => rewrite H; clear H
           end;
    rewrite ?handle_state; try reflexivity;
    try (exists []; split; reflexivity);
    try (eexists [_]; split; reflexivity);
    try (eexists [_; _]; split; reflexivity).
Qed.

(** ** The output location *)

Lemma resolve_child d : forall t nm es,
  resolve t d = Found (Dir es) ->
  resolve t (d ++ [nm])%list
  = match entry nm es with Some n => Found n | None => NoEnt end.
Proof.
  induction d as [|c d IH]; intros t nm es Hd; simpl in *.
  - injection Hd as ->. destruct (entry nm es); reflexivity.
  - destruct t as [x|es0]; [discriminate|].
    destruct (entry c es0); [now apply IH | discriminate].
Qed.

Lemma resolve_missing_child d : forall t nm,
  resolve t d = NoEnt -> resolve t (d ++ [nm])%list = NoEnt.
Proof.
  induction d as [|c d IH]; intros t nm Hd; simpl in *; [discriminate|].
  destruct t as [x|es0]; [discriminate|].
  destruct (entry c es0); [now apply IH | reflexivity].
Qed.

Lemma handle_outcome e s : handle e s = (handler_outcome e, s).
Proof.
  unfold handler_outcome, handle, parse_file_handlers.
  destruct (is_Timeout (cls e)); [reflexivity|].
  destruct (is_ConnectionError (cls e)); [reflexivity|].
  destruct (is_HTTPError (cls e)).
  - destruct (exn_response e); reflexivity.
  - destruct (is_Exception (cls e)); reflexivity.
Qed.

(** [write_text] of a string to a child of an existing directory: what
    it returns and what it leaves when it fails. *)
Lemma write_text_child t d nm s es :
  resolve t d = Found (Dir es) ->
  let out := (d ++ [nm])%list in
  if Nat.ltb NAME_MAX (String.length nm) then
    write_text t out (PStr s)
    = inl (os_error OSError "[Errno 36] File name too long" (path_str out))
    /\ write_text_leaves t out (PStr s) = t
  else if is_dir t out then
    write_text t out (PStr s)
    = inl (os_error IsADirectoryError "[Errno 21] Is a directory" (path_str out))
    /\ write_text_leaves t out (PStr s) = t
  else
    match utf8_encode s with
    | inr _ => write_text t out (PStr s) = inr (put out (File s) t)
    | inl e => write_text t out (PStr s) = inl e
               /\ write_text_leaves t out (PStr s) = put out (File "") t
    end.
Proof.
  intros Hd out.
  assert (Hne : out <> []) by (subst out; now destruct d).
  assert (Hpar : parent out = d) by apply removelast_last.
  assert (Hname : name out = nm) by apply last_last.
  unfold is_dir, write_text, write_text_leaves.
  rewrite (open_w_eq t out Hne), Hpar, Hname, Hd.
  subst out. rewrite (resolve_child _ _ nm _ Hd).
  destruct (Nat.ltb NAME_MAX (String.length nm)); [now split|].
  destruct (entry nm es) as [[x|es']|]; try (now split);
    destruct (utf8_encode s) as [e|b] eqn:Hu; try (now split);
    rewrite put_put; now rewrite (utf8_encode_bytes _ _ Hu).
Qed.

(** The [mkdir] of the output directory and the write of the output
    file, in each state of the output location. *)
Lemma write_phase_cases t nm content :
  let out := ["data"; "outputs"; nm] in
  match outputs_state_of t with
  | OutFile =>
      mkdir true true t DATA_OUTPUTS
      = inl (os_error FileExistsError "[Errno 17] File exists" "data/outputs")
  | OutBlocked =>
      mkdir true true t DATA_OUTPUTS
      = inl (os_error NotADirectoryError "[Errno 20] Not a directory" "data/outputs")
  | OutDir | OutMissing =>
      exists t1,
        mkdir true true t DATA_OUTPUTS = inr t1
        /\ match content with
           | PStr s =>
               if Nat.ltb NAME_MAX (String.length nm) then
                 write_text t1 out content
                 = inl (os_error OSError "[Errno 36] File name too long"
                                 (path_str out))
                 /\ write_text_leaves t1 out content = t1
               else if is_dir t out then
                 write_text t1 out content
                 = inl (os_error IsADirectoryError "[Errno 21] Is a directory"
                                 (path_str out))
                 /\ write_text_leaves t1 out content = t1
               else
                 match utf8_encode s with
                 | inr _ =>
                     exists t2, write_text t1 out content = inr t2
                                /\ t2 = put out (File s) t1
                                /\ resolve t2 out = Found (File s)
                                /\ is_dir t2 DATA_OUTPUTS = true
                 | inl e =>
                     exists t2, write_text t1 out content = inl e
                                /\ write_text_leaves t1 out content = t2
                                /\ t2 = put out (File "") t1
                                /\ resolve t2 out = Found (File "")
                                /\ is_dir t2 DATA_OUTPUTS = true
                 end
           | _ => write_text t1 out content = inl (not_str_error content)
                  /\ write_text_leaves t1 out content = t1
           end
  end.
Proof.
  intros out. pose proof (mkdir_outputs t) as Hmk.
  change out with (DATA_OUTPUTS ++ [nm])%list.
  assert (Hstep : forall t1 es1 s,
    resolve t1 DATA_OUTPUTS = Found (Dir es1) ->
    is_dir t1 (DATA_OUTPUTS ++ [nm])%list = is_dir t (DATA_OUTPUTS ++ [nm])%list ->
    if Nat.ltb NAME_MAX (String.length nm) then
      write_text t1 (DATA_OUTPUTS ++ [nm])%list (PStr s)
      = inl (os_error OSError "[Errno 36] File name too long"
                      (path_str (DATA_OUTPUTS ++ [nm])%list))
      /\ write_text_leaves t1 (DATA_OUTPUTS ++ [nm])%list (PStr s) = t1
    else if is_dir t (DATA_OUTPUTS ++ [nm])%list then
      write_text t1 (DATA_OUTPUTS ++ [nm])%list (PStr s)
      = inl (os_error IsADirectoryError "[Errno 21] Is a directory"
                      (path_str (DATA_OUTPUTS ++ [nm])%list))
      /\ write_text_leaves t1 (DATA_OUTPUTS ++ [nm])%list (PStr s) = t1
    else
      match utf8_encode s with
      | inr _ =>
          exists t2, write_text t1 (DATA_OUTPUTS ++ [nm])%list (PStr s) = inr t2
                     /\ t2 = put (DATA_OUTPUTS ++ [nm])%list (File s) t1
                     /\ resolve t2 (DATA_OUTPUTS ++ [nm])%list = Found (File s)
                     /\ is_dir t2 DATA_OUTPUTS = true
      | inl e =>
          exists t2, write_text t1 (DATA_OUTPUTS ++ [nm])%list (PStr s) = inl e
                     /\ write_text_leaves t1 (DATA_OUTPUTS ++ [nm])%list (PStr s) = t2
                     /\ t2 = put (DATA_OUTPUTS ++ [nm])%list (File "") t1
                     /\ resolve t2 (DATA_OUTPUTS ++ [nm])%list = Found (File "")
                     /\ is_dir t2 DATA_OUTPUTS = true
      end).
  { intros t1 es1 s Hd Hsame.
    pose proof (write_text_child t1 DATA_OUTPUTS nm s es1 Hd) as Hw.
    cbv zeta in Hw. rewrite Hsame in Hw.
    destruct (Nat.ltb NAME_MAX (String.length nm)); [exact Hw|].
    destruct (is_dir t (DATA_OUTPUTS ++ [nm])%list); [exact Hw|].
    destruct (utf8_encode s) as [e|b].
    - destruct Hw as (Hw & Hl). eexists. split; [exact Hw|].
      split; [exact Hl|]. split; [reflexivity|]. split.
      + eapply resolve_put; [discriminate | exact Hd].
      + eapply is_dir_put_child; exact Hd.
    - eexists. split; [exact Hw|]. split; [reflexivity|]. split.
      + eapply resolve_put; [discriminate | exact Hd].
      + eapply is_dir_put_child; exact Hd. }
  destruct (outputs_state_of t) eqn:Hst; try exact Hmk.
  - (* the directory is there *)
    exists t. split; [exact Hmk|].
    destruct content; try (split; reflexivity).
    unfold outputs_state_of in Hst.
    destruct (resolve t DATA_OUTPUTS) as [[x|es]| |] eqn:Hd; try discriminate.
    eapply Hstep; [exact Hd | reflexivity].
  - (* the directory is made *)
    destruct Hmk as (t1 & Hmk & Hd). exists t1. split; [exact Hmk|].
    destruct content; try (split; reflexivity).
    unfold outputs_state_of in Hst.
    destruct (resolve t DATA_OUTPUTS) as [[x|es]| |] eqn:Hd0; try discriminate.
    eapply Hstep; [exact Hd|].
    unfold is_dir. rewrite (resolve_child _ _ nm _ Hd).
    now rewrite (resolve_missing_child _ _ nm Hd0).
Qed.

(** The outcome of a run is the outcome read off its observations. *)
Lemma outcome_observed api t :
  outcome api t
  = observed_outcome (first_input t) (read_bytes t) api
                     (outputs_state_of t) (is_dir t).
Proof.
  unfold outcome, observed_outcome.
  destruct (run_course api t) as
    [ H0 | f e H0 H1 | f b e H0 H1 H2 | f b r e H0 H1 H2 H3
    | f b r e H0 H1 H2 H3 H4 | f b r v H0 H1 H2 H3 H4 H5
    | f b r j H0 H1 H2 H3 H4 H5 | f b r j e H0 H1 H2 H3 H4 H5 H6
    | f b r j t1 e H0 H1 H2 H3 H4 H5 H6 H7
    | f b r j t1 t2 H0 H1 H2 H3 H4 H5 H6 H7 ];
    rewrite H0; try rewrite H1; try rewrite H2; try rewrite H3;
    try rewrite H4; try rewrite H5; rewrite ?handle_outcome;
    try reflexivity.
  - (* not a dict *)
    destruct v; try reflexivity. now destruct (H5 d).
  - (* mkdir fails *)
    pose proof (write_phase_cases t (output_filename f) (content_of j)) as Hw.
    cbv zeta in Hw. unfold write_phase. simpl fst.
    destruct (outputs_state_of t);
      try (destruct Hw as (t1 & Hw & _)); rewrite Hw in H6;
      try discriminate; injection H6 as <-; reflexivity.
  - (* write_text fails *)
    pose proof (write_phase_cases t (output_filename f) (content_of j)) as Hw.
    cbv zeta in Hw. unfold write_phase. simpl fst.
    fold (output_path f) in Hw.
    destruct (outputs_state_of t);
      try (rewrite Hw in H6; discriminate);
      destruct Hw as (t1' & Hmk & Hw); rewrite Hmk in H6; injection H6 as <-;
      (destruct (content_of j) as [| | | |s| |];
       try (destruct Hw as (Hw & _); rewrite Hw in H7; injection H7 as <-;
            reflexivity);
       (destruct (Nat.ltb NAME_MAX _);
        [destruct Hw as (Hw & _); rewrite Hw in H7; injection H7 as <-;
         reflexivity|]);
       (destruct (is_dir t (output_path f));
        [destruct Hw as (Hw & _); rewrite Hw in H7; injection H7 as <-;
         reflexivity|]);
       destruct (utf8_encode s); destruct Hw as (t2 & Hw & _);
       rewrite Hw in H7; try discriminate; injection H7 as <-; reflexivity).
  - (* success *)
    pose proof (write_phase_cases t (output_filename f) (content_of j)) as Hw.
    cbv zeta in Hw. unfold write_phase. simpl fst.
    fold (output_path f) in Hw.
    destruct (outputs_state_of t);
      try (rewrite Hw in H6; discriminate);
      destruct Hw as (t1' & Hmk & Hw); rewrite Hmk in H6; injection H6 as <-;
      (destruct (content_of j) as [| | | |s| |];
       try (destruct Hw as (Hw & _); rewrite Hw in H7; discriminate);
       (destruct (Nat.ltb NAME_MAX _);
        [destruct Hw as (Hw & _); rewrite Hw in H7; discriminate|]);
       (destruct (is_dir t (output_path f));
        [destruct Hw as (Hw & _); rewrite Hw in H7; discriminate|]);
       destruct (utf8_encode s); destruct Hw as (t2' & Hw & _);
       rewrite Hw in H7; try discriminate; reflexivity).
Qed.

(** ** Running again in the file system a run leaves behind *)

Lemma same_inputs_put t p v :
  same_inputs t (put ("data" :: "outputs" :: p) v t).
Proof.
  intros q.
  exact (resolve_put_diverge ["data"] "outputs" "inputs" p q v t ltac:(discriminate)).
Qed.

Lemma same_inputs_mkdir t t1 :
  mkdir true true t DATA_OUTPUTS = inr t1 -> same_inputs t t1.
Proof.
  unfold mkdir, DATA_OUTPUTS, same_inputs.
  change (List.length ["data"; "outputs"]) with 2%nat.
  destruct t as [d|es]; [discriminate|].
  destruct (entry "data" es) as [[d|es1]|] eqn:E1.
  - crunch. discriminate.
  - destruct (entry "outputs" es1) as [[d|es2]|] eqn:E2;
      crunch; try discriminate; intros [= <-] q; crunch;
      rewrite ?entry_set_entry_other by discriminate; reflexivity.
  - crunch. intros [= <-] q. crunch.
    rewrite ?entry_set_entry_other by discriminate. reflexivity.
Qed.

Lemma write_text_put t p data t' :
  write_text t p data = inr t' -> exists s, data = PStr s /\ t' = put p (File s) t.
Proof.
  destruct data; try discriminate.
  destruct p as [|c p]; [discriminate|].
  rewrite write_text_str by discriminate.
  destruct (resolve t (parent (c :: p))) as [[x|es]| |]; try discriminate.
  destruct (Nat.ltb NAME_MAX _); [discriminate|].
  destruct (entry (name (c :: p)) es) as [[x|es']|]; try discriminate;
    destruct (utf8_encode s) as [e|b] eqn:Hu; try discriminate;
    intros [= <-]; rewrite (utf8_encode_bytes _ _ Hu); eauto.
Qed.

Lemma same_inputs_write t p data t' :
  write_text t ("data" :: "outputs" :: p) data = inr t' -> same_inputs t t'.
Proof.
  intros H. destruct (write_text_put _ _ _ _ H) as (s & _ & ->).
  apply same_inputs_put.
Qed.

Lemma same_inputs_first t t' : same_inputs t t' -> first_input t' = first_input t.
Proof.
  intros H. unfold first_input, glob_star, DATA_INPUTS. now rewrite (H ["input"]).
Qed.

Lemma first_input_shape t p :
  first_input t = Some p -> exists nm, p = ["data"; "inputs"; "input"; nm].
Proof.
  unfold first_input, glob_star, DATA_INPUTS.
  destruct (resolve t ["data"; "inputs"; "input"]) as [[x|es]| |]; try discriminate.
  destruct es as [|[nm n] es]; [discriminate|]. simpl. intros [= <-]. eauto.
Qed.

Lemma same_inputs_read t t' p :
  same_inputs t t' -> first_input t = Some p -> read_bytes t' p = read_bytes t p.
Proof.
  intros H Hp. destruct (first_input_shape t p Hp) as (nm & ->).
  unfold read_bytes. now rewrite (H ["input"; nm]).
Qed.

(** A successful [mkdir] of the output directory changes nothing when
    the directory is there, and otherwise adds it, empty. *)
Lemma mkdir_outputs_inr t t1 :
  mkdir true true t DATA_OUTPUTS = inr t1 ->
  (outputs_state_of t = OutDir /\ t1 = t)
  \/ (outputs_state_of t = OutMissing
      /\ resolve t1 DATA_OUTPUTS = Found (Dir [])
      /\ forall nm, is_dir t (DATA_OUTPUTS ++ [nm])%list = false).
Proof.
  intros Hmk. pose proof (mkdir_outputs t) as Hm.
  destruct (outputs_state_of t) eqn:Hst; try congruence.
  - left. split; [reflexivity | congruence].
  - right. destruct Hm as (t1' & Hm & Hd).
    assert (t1' = t1) by congruence. subst t1'.
    split; [reflexivity|]. split; [exact Hd|].
    intros nm. unfold outputs_state_of in Hst.
    destruct (resolve t DATA_OUTPUTS) as [[x|es]| |] eqn:Hd0; try discriminate.
    unfold is_dir. now rewrite (resolve_missing_child _ _ nm Hd0).
Qed.

(** What a failed write of the output file leaves: the tree after the
    [mkdir], or, when the text could not be encoded, that tree with the
    output file in it, empty. *)
Lemma write_fails_leaves t nm content t1 e :
  let out := ["data"; "outputs"; nm] in
  mkdir true true t DATA_OUTPUTS = inr t1 ->
  write_text t1 out content = inl e ->
  write_text_leaves t1 out content = t1
  \/ ((exists s, content = PStr s /\ utf8_encode s = inl e)
      /\ write_text_leaves t1 out content = put out (File "") t1
      /\ resolve (put out (File "") t1) out = Found (File "")
      /\ is_dir (put out (File "") t1) DATA_OUTPUTS = true
      /\ is_dir t out = false).
Proof.
  intros out Hmk Hwr.
  pose proof (write_phase_cases t nm content) as Hw. cbv zeta in Hw.
  fold out in Hw.
  destruct (outputs_state_of t);
    try (rewrite Hw in Hmk; discriminate);
    destruct Hw as (t1' & Hmk' & Hw); rewrite Hmk' in Hmk; injection Hmk as ->;
    (destruct content as [| | | |s| |]; try (left; apply Hw);
     (destruct (Nat.ltb NAME_MAX _); [left; apply Hw|]);
     (destruct (is_dir t out); [left; apply Hw|]);
     destruct (utf8_encode s) as [e'|b] eqn:Hu;
     [ destruct Hw as (t2 & Hw & Hl & Ht2 & Hres & Hd);
       rewrite Ht2 in Hl, Hres, Hd; clear Ht2;
       right; split; [exists s; split; [reflexivity | congruence]|];
       (split; [exact Hl|]); (split; [exact Hres|]);
       split; [exact Hd | reflexivity]
     | destruct Hw as (t2 & Hw & _); rewrite Hw in Hwr; discriminate ]).
Qed.

(** What a run leaves behind: the output location keeps or gains the
    directory, and the output path is a directory after the run exactly
    when it was one before. *)
Lemma final_fs_course api t :
  same_inputs t (final_fs api t)
  /\ (final_fs api t = t
      \/ (outputs_state_of (final_fs api t) = OutDir
          /\ (outputs_state_of t = OutDir \/ outputs_state_of t = OutMissing)
          /\ forall p, first_input t = Some p ->
                       is_dir (final_fs api t) (output_path p)
                       = is_dir t (output_path p))).
Proof.
  unfold final_fs.
  destruct (run_course api t) as
    [ H0 | f e H0 H1 | f b e H0 H1 H2 | f b r e H0 H1 H2 H3
    | f b r e H0 H1 H2 H3 H4 | f b r v H0 H1 H2 H3 H4 H5
    | f b r j H0 H1 H2 H3 H4 H5 | f b r j e H0 H1 H2 H3 H4 H5 H6
    | f b r j t1 e H0 H1 H2 H3 H4 H5 H6 H7
    | f b r j t1 t2 H0 H1 H2 H3 H4 H5 H6 H7 ];
    rewrite ?handle_state; simpl fs;
    try (split; [intros q; reflexivity | left; reflexivity]).
  - (* the write failed *)
    destruct (write_fails_leaves t (output_filename f) (content_of j) t1 e H6 H7)
      as [Hl|(_ & Hl & Hres & Hd & Hnd)];
      fold (output_path f) in *; rewrite Hl.
    + (* the tree is the one after mkdir *)
      split; [now apply same_inputs_mkdir|].
      destruct (mkdir_outputs_inr t t1 H6) as [(Hst & ->)|(Hst & Hd & Hnd)].
      * now left.
      * right. split; [unfold outputs_state_of; now rewrite Hd|].
        split; [now right|].
        intros p Hp. rewrite H0 in Hp. injection Hp as <-.
        change (output_path f) with (DATA_OUTPUTS ++ [output_filename f])%list.
        rewrite Hnd. unfold is_dir.
        now rewrite (resolve_child _ _ (output_filename f) _ Hd).
    + (* the output file is there, empty *)
      split.
      { intros q. unfold output_path. rewrite same_inputs_put.
        now apply same_inputs_mkdir. }
      right. split.
      { unfold outputs_state_of. unfold is_dir in Hd.
        destruct (resolve _ DATA_OUTPUTS) as [[x|es]| |]; try discriminate.
        reflexivity. }
      split.
      { destruct (mkdir_outputs_inr t t1 H6) as [(Hst & _)|(Hst & _)]; auto. }
      intros p Hp. rewrite H0 in Hp. injection Hp as <-.
      rewrite Hnd. unfold is_dir. now rewrite Hres.
  - (* success: the tree holds the output file *)
    pose proof (same_inputs_write _ _ _ _ H7) as Hin2.
    split.
    { intros q. rewrite Hin2. now apply same_inputs_mkdir. }
    right.
    destruct (write_text_put _ _ _ _ H7) as (s & Hs & ->).
    assert (Hst : outputs_state_of t = OutDir \/ outputs_state_of t = OutMissing).
    { destruct (mkdir_outputs_inr t t1 H6) as [(Hst & _)|(Hst & _)]; auto. }
    assert (Hd1 : exists es1, resolve t1 DATA_OUTPUTS = Found (Dir es1)).
    { destruct (mkdir_outputs_inr t t1 H6) as [(Hst' & ->)|(_ & Hd & _)]; eauto.
      unfold outputs_state_of in Hst'.
      destruct (resolve t DATA_OUTPUTS) as [[x|es]| |]; try discriminate. eauto. }
    destruct Hd1 as (es1 & Hd1).
    change (output_path f) with (DATA_OUTPUTS ++ [output_filename f])%list in *.
    split.
    { pose proof (is_dir_put_child DATA_OUTPUTS t1 (output_filename f) (File s)
                                   es1 Hd1) as Hd.
      unfold outputs_state_of. unfold is_dir in Hd.
      destruct (resolve (put _ _ t1) DATA_OUTPUTS) as [[x|es]| |];
        try discriminate.
      reflexivity. }
    split; [exact Hst|].
    intros p Hp. rewrite H0 in Hp. injection Hp as <-.
    change (output_path f) with (DATA_OUTPUTS ++ [output_filename f])%list.
    unfold is_dir at 1.
    rewrite (resolve_put (DATA_OUTPUTS ++ [output_filename f])%list (File s) t1 es1)
      by (discriminate || exact Hd1).
    pose proof (write_text_child t1 DATA_OUTPUTS (output_filename f) s es1 Hd1) as Hw.
    cbv zeta in Hw. rewrite Hs in H7.
    assert (Hsame : is_dir t1 (DATA_OUTPUTS ++ [output_filename f])%list
                    = is_dir t (DATA_OUTPUTS ++ [output_filename f])%list).
    { destruct (mkdir_outputs_inr t t1 H6) as [(_ & ->)|(_ & Hd & Hnd)];
        [reflexivity|].
      rewrite Hnd. unfold is_dir.
      now rewrite (resolve_child _ _ (output_filename f) _ Hd). }
    rewrite <- Hsame.
    destruct (Nat.ltb NAME_MAX _);
      [destruct Hw as (Hw & _); rewrite Hw in H7; discriminate|].
    destruct (is_dir t1 _); [destruct Hw as (Hw & _); congruence | reflexivity].
Qed.


(** ** The cases of [tests/test_main.py]

    Each case of the test class, run in a workspace whose input file
    sits in [data/inputs/input]. *)

Example parse_file_success_case :
  run (api_returns (json_response 200 "" success_json)) workspace
  = (inr [("success", PBool true);
          ("message", PStr "文件解析成功");
          ("content", PStr "# Test Document");
          ("input_file", PStr "test.pdf");
          ("output_file", PStr "test_parsed.md")],
     mkState
       (Dir [("data",
              Dir [("inputs",
                    Dir [("input", Dir [("test.pdf", File "Mock PDF content")])]);
                   ("outputs",
                    Dir [("test_parsed.md", File "# Test Document")])])])
       [EvGlob ["data"; "inputs"; "input"];
        EvOpen ["data"; "inputs"; "input"; "test.pdf"];
        EvPost (the_call ["data"; "inputs"; "input"; "test.pdf"] "Mock PDF content");
        EvMkdir ["data"; "outputs"];
        EvWrite ["data"; "outputs"; "test_parsed.md"] (PStr "# Test Document")]).
Proof. reflexivity. Qed.

Example parse_file_no_input_case :
  outcome (api_returns (json_response 200 "" success_json))
          (Dir [("data", Dir [("inputs", Dir [("input", Dir [])])])])
  = inr no_input_result.
Proof. reflexivity. Qed.

Example parse_file_api_error_case :
  outcome (api_returns (json_response 200 ""
             (PDict [("code", PInt 500); ("message", PStr "Internal server error")])))
          workspace
  = inr [("success", PBool false);
         ("error", PStr "Internal server error");
         ("error_code", PStr "PARSE_FAILED")].
Proof. reflexivity. Qed.

Example parse_file_timeout_case :
  outcome (api_raises timeout_exn) workspace = inr timeout_result.
Proof. reflexivity. Qed.

Example parse_file_connection_error_case :
  outcome (api_raises connection_exn) workspace
  = inr [("success", PBool false);
         ("error", PStr "无法连接到服务器 http://10.0.0.111:31475");
         ("error_code", PStr "CONNECTION_ERROR")].
Proof. reflexivity. Qed.

Example parse_file_http_error_case :
  outcome (api_returns (json_response 404 "Not Found" PNone)) workspace
  = inr [("success", PBool false);
         ("error", PStr "HTTP 错误: 404 - Not Found");
         ("error_code", PStr "HTTP_ERROR")].
Proof. reflexivity. Qed.

(** The float 200.0 passes the test of the code as the integer 200
    does; 200.5 and the string ["200"] do not. *)
Example parse_file_float_code_case :
  outcome (api_returns (json_response 200 ""
             (PDict [("code", PFloat (S754_finite false 25 3));
                     ("content", PStr "text")])))
          workspace
  = inr [("success", PBool true);
         ("message", PStr "文件解析成功");
         ("content", PStr "text");
         ("input_file", PStr "test.pdf");
         ("output_file", PStr "test_parsed.md")]
  /\ outcome (api_returns (json_response 200 ""
                (PDict [("code", PFloat (S754_finite false 401 (-1)));
                        ("content", PStr "text")])))
             workspace
     = inr [("success", PBool false);
            ("error", PStr "解析失败");
            ("error_code", PStr "PARSE_FAILED")].
Proof. split; reflexivity. Qed.

(** A stem of 250 bytes gives an output name of 260 bytes, which the
    file system refuses. *)
Example parse_file_long_name_case :
  exists m,
    outcome (api_returns (json_response 200 "" success_json))
            (Dir [("data",
                   Dir [("inputs",
                         Dir [("input",
                               Dir [(long_name ++ ".pdf", File "x")])])])])
    = inr [("success", PBool false);
           ("error", PStr ("[Errno 36] File name too long: " ++ m));
           ("error_code", PStr "UNEXPECTED_ERROR")].
Proof. eexists. reflexivity. Qed.

(** The stem of a file name, as [pathlib] cuts it. *)
Example stem_cases :
  stem_of "test.pdf" = "test"
  /\ stem_of "archive.tar.gz" = "archive.tar"
  /\ stem_of ".bashrc" = ".bashrc"
  /\ stem_of "README" = "README"
  /\ stem_of "trailing." = "trailing.".
Proof. repeat split. Qed.

(** * The claims *)

(** ** C9: the input location is [data/inputs/input] *)

Lemma first_input_none t :
  (forall es, resolve t ["data"; "inputs"; "input"] = Found (Dir es) -> es = []) ->
  first_input t = None.
Proof.
  unfold first_input, glob_star, DATA_INPUTS. intros H.
  destruct (resolve t ["data"; "inputs"; "input"]) as [[x|es]| |]; try reflexivity.
  now rewrite (H es eq_refl).
Qed.

(** C9. The directory globbed is [data/inputs/input]: whenever it is
    missing, is not a directory or has no entry, whatever else the
    workspace holds, [parse_file] returns the failure result with
    [error_code] [NO_INPUT_FILE]; the only event of the run is the glob
    of [data/inputs/input], so no file is opened, no request is made and
    the file system is left as it was. *)
Theorem C9_input_location api t :
  (forall es, resolve t ["data"; "inputs"; "input"] = Found (Dir es) -> es = []) ->
  outcome api t = inr no_input_result
  /\ dict_get no_input_result "success" = Some (PBool false)
  /\ dict_get no_input_result "error_code" = Some (PStr "NO_INPUT_FILE")
  /\ events api t = [EvGlob ["data"; "inputs"; "input"]]
  /\ posts (events api t) = []
  /\ final_fs api t = t.
Proof.
  intros H. apply first_input_none in H.
  unfold outcome, events, final_fs. rewrite (run_no_input api t H).
  repeat split.
Qed.

(** The fixture of the tests puts [test.pdf] directly in [data/inputs]:
    the file is there, and the run still ends with [NO_INPUT_FILE]. *)
Lemma C9_witness :
  resolve fixture_workspace ["data"; "inputs"; "test.pdf"]
  = Found (File "Mock PDF content")
  /\ outcome (api_returns (json_response 200 "" success_json)) fixture_workspace
     = inr no_input_result
  /\ posts (events (api_returns (json_response 200 "" success_json))
                   fixture_workspace) = [].
Proof.
  split; [reflexivity|].
  destruct (C9_input_location (api_returns (json_response 200 "" success_json))
                              fixture_workspace) as (H1 & _ & _ & _ & H5 & _).
  - intros es. vm_compute. discriminate.
  - split; assumption.
Defined.

(** ** C5: one fixed endpoint *)

(** C5. Every call of [requests.post] that a run makes goes to
    [http://10.0.0.111:31475/parse] with the query parameters
    [format='md'] and [cache=True] and a multipart body of the single
    part [file]; no [data], [json], [headers] or [auth] argument is
    passed. *)
Theorem C5_fixed_endpoint api t c :
  In (EvPost c) (events api t) ->
  call_url c = "http://10.0.0.111:31475/parse"
  /\ call_params c = Some [("format", PStr "md"); ("cache", PBool true)]
  /\ (exists part, call_files c = Some [("file", part)]
                   /\ part_content_type part = "application/octet-stream")
  /\ call_auth c = None
  /\ call_headers c = None
  /\ call_data c = None
  /\ call_json c = None.
Proof.
  intros Hin. pose proof (events_course api t) as Hev.
  assert (Hcall : exists input_file data, c = the_call input_file data).
  { destruct (first_input t) as [input_file|].
    - destruct (read_bytes t input_file) as [e|data].
      + rewrite Hev in Hin. simpl in Hin.
        destruct Hin as [H|[H|[]]]; discriminate.
      + destruct Hev as (rest & Hev & Hrest). rewrite Hev in Hin.
        simpl in Hin. destruct Hin as [H|[H|[H|Hin]]]; try discriminate.
        * injection H as <-. eauto.
        * rewrite forallb_forall in Hrest. apply Hrest in Hin. discriminate.
    - rewrite Hev in Hin. simpl in Hin. destruct Hin as [H|[]]; discriminate. }
  destruct Hcall as (input_file & data & ->). simpl.
  repeat split. eexists. split; reflexivity.
Qed.

Lemma C5_witness :
  In (EvPost (the_call ["data"; "inputs"; "input"; "test.pdf"] "Mock PDF content"))
     (events (api_returns (json_response 200 "" success_json)) workspace)
  /\ call_url (the_call ["data"; "inputs"; "input"; "test.pdf"] "Mock PDF content")
     = "http://10.0.0.111:31475/parse".
Proof.
  assert (Hin : In (EvPost (the_call ["data"; "inputs"; "input"; "test.pdf"]
                                     "Mock PDF content"))
                   (events (api_returns (json_response 200 "" success_json))
                           workspace)).
  { vm_compute. right; right; left. reflexivity. }
  split; [exact Hin|].
  exact (proj1 (C5_fixed_endpoint _ _ _ Hin)).
Defined.

(** ** C8: the early errors leave the file system alone *)

Lemma handle_early_code e s d code :
  is_builtin (cls e) = true ->
  fst (handle e s) = inr d ->
  dict_get d "error_code" = Some (PStr code) ->
  ~ In code early_error_codes.
Proof.
  intros He. rewrite (handle_builtin e s He). simpl.
  intros [= <-]. simpl. intros [= <-]. simpl. intuition discriminate.
Qed.

(** C8. Whenever [parse_file] returns a failure result whose
    [error_code] is [NO_INPUT_FILE], [TIMEOUT], [CONNECTION_ERROR],
    [HTTP_ERROR] or [PARSE_FAILED], the file system after the call is the
    file system before it, and the run has attempted neither the [mkdir]
    of the output directory nor a write. *)
Theorem C8_error_atomicity api t d code :
  outcome api t = inr d ->
  dict_get d "success" = Some (PBool false) ->
  dict_get d "error_code" = Some (PStr code) ->
  In code early_error_codes ->
  final_fs api t = t
  /\ forallb (fun ev => negb (is_fs_update ev)) (events api t) = true.
Proof.
  unfold outcome, final_fs, events.
  destruct (run_course api t) as
    [ H0 | f e H0 H1 | f b e H0 H1 H2 | f b r e H0 H1 H2 H3
    | f b r e H0 H1 H2 H3 H4 | f b r v H0 H1 H2 H3 H4 H5
    | f b r j H0 H1 H2 H3 H4 H5 | f b r j e H0 H1 H2 H3 H4 H5 H6
    | f b r j t1 e H0 H1 H2 H3 H4 H5 H6 H7
    | f b r j t1 t2 H0 H1 H2 H3 H4 H5 H6 H7 ];
    intros Hout Hsucc Hcode Hin;
    rewrite ?handle_state; try (split; reflexivity).
  - (* mkdir failed: the result is UNEXPECTED_ERROR *)
    exfalso. eapply handle_early_code; try eassumption.
    apply OSError_is_builtin. eapply mkdir_fuel_raises. exact H6.
  - (* write_text failed: the result is UNEXPECTED_ERROR *)
    exfalso. eapply handle_early_code; try eassumption.
    eapply write_text_raises. exact H7.
  - (* success: the result has no error_code *)
    simpl in Hout. injection Hout as <-. discriminate.
Qed.

Lemma C8_witness :
  outcome (api_raises timeout_exn) workspace = inr timeout_result
  /\ final_fs (api_raises timeout_exn) workspace = workspace.
Proof.
  split; [reflexivity|].
  apply (C8_error_atomicity (api_raises timeout_exn) workspace
                            timeout_result "TIMEOUT").
  - reflexivity.
  - reflexivity.
  - reflexivity.
  - simpl. auto.
Defined.

(** ** C6: no retry *)

(** C6. A run posts at most once, and a post that fails is the last
    event of the run: nothing is retried and the file system is left as
    it was.  When the post raises a timeout (a connect timeout
    included), [parse_file] returns the failure result with the error
    code [TIMEOUT]; when it raises a connection error that is not a
    timeout, a plain [ConnectionError] in particular, the failure result
    with the error code [CONNECTION_ERROR]; when the response has an
    error status (400..599), the failure result with the error code
    [HTTP_ERROR], whose text gives the status and the body. *)
Theorem C6_no_retry api t :
  (List.length (posts (events api t)) <= 1)%nat
  /\ (forall input_file data e,
        first_input t = Some input_file ->
        read_bytes t input_file = inr data ->
        api (the_call input_file data) = inl e ->
        (is_Timeout (cls e) = true ->
         outcome api t
         = inr [("success", PBool false);
                ("error", PStr "请求超时，文件可能过大或服务器响应缓慢");
                ("error_code", PStr "TIMEOUT")])
        /\ (is_ConnectionError (cls e) = true ->
            is_Timeout (cls e) = false ->
            outcome api t
            = inr [("success", PBool false);
                   ("error", PStr "无法连接到服务器 http://10.0.0.111:31475");
                   ("error_code", PStr "CONNECTION_ERROR")])
        /\ (cls e = ConnectionError ->
            outcome api t
            = inr [("success", PBool false);
                   ("error", PStr "无法连接到服务器 http://10.0.0.111:31475");
                   ("error_code", PStr "CONNECTION_ERROR")])
        /\ events api t = [EvGlob DATA_INPUTS; EvOpen input_file;
                           EvPost (the_call input_file data)]
        /\ final_fs api t = t)
  /\ (forall input_file data r,
        first_input t = Some input_file ->
        read_bytes t input_file = inr data ->
        api (the_call input_file data) = inr r ->
        400 <= status_code (resp_info r) < 600 ->
        outcome api t
        = inr [("success", PBool false);
               ("error", PStr ("HTTP 错误: "
                               ++ str_of_int (status_code (resp_info r))
                               ++ " - " ++ text (resp_info r)));
               ("error_code", PStr "HTTP_ERROR")]
        /\ events api t = [EvGlob DATA_INPUTS; EvOpen input_file;
                           EvPost (the_call input_file data)]
        /\ final_fs api t = t).
Proof.
  split; [|split].
  - pose proof (events_course api t) as Hev.
    destruct (first_input t) as [input_file|].
    + destruct (read_bytes t input_file) as [e|data].
      * rewrite Hev. simpl. lia.
      * destruct Hev as (rest & -> & Hrest).
        unfold posts. rewrite flat_map_app. simpl.
        assert (Hnil : flat_map (fun ev => match ev with
                                           | EvPost c => [c] | _ => [] end) rest = []).
        { clear - Hrest. induction rest as [|ev rest IH]; [reflexivity|].
          simpl in Hrest. apply andb_prop in Hrest as [H1 H2].
          destruct ev; try discriminate; simpl; auto. }
        rewrite Hnil. simpl. lia.
    + rewrite Hev. simpl. lia.
  - intros input_file data e Hfirst Hread Hpost.
    pose proof (run_post_raises api t input_file Hfirst data Hread e Hpost) as Hrun.
    unfold outcome, events, final_fs. rewrite Hrun, handle_state.
    split; [|split; [|split; [|split]]]; try reflexivity.
    + intros Ht. now rewrite handle_Timeout.
    + intros Hc Ht. now rewrite handle_ConnectionError.
    + intros Hc. rewrite handle_ConnectionError; [reflexivity| |]; now rewrite Hc.
  - intros input_file data r Hfirst Hread Hpost Hst.
    destruct (http_error_of_status r Hst) as (e & He).
    pose proof (run_status_raises api t input_file Hfirst data Hread r Hpost e He)
      as Hrun.
    apply http_error_of_Some in He as (Hc & Hr & _).
    unfold outcome, events, final_fs. rewrite Hrun, handle_state.
    now rewrite (handle_HTTPError e _ _ Hc Hr).
Qed.

(** The connection error and the status 404 of the tests, and a connect
    timeout, which is both a timeout and a connection error. *)
Lemma C6_witness :
  outcome (api_raises connection_exn) workspace
  = inr [("success", PBool false);
         ("error", PStr "无法连接到服务器 http://10.0.0.111:31475");
         ("error_code", PStr "CONNECTION_ERROR")]
  /\ posts (events (api_raises connection_exn) workspace)
     = [the_call ["data"; "inputs"; "input"; "test.pdf"] "Mock PDF content"]
  /\ outcome (api_raises (mkExn ConnectTimeout "timed out" None)) workspace
     = inr [("success", PBool false);
            ("error", PStr "请求超时，文件可能过大或服务器响应缓慢");
            ("error_code", PStr "TIMEOUT")]
  /\ outcome (api_returns (json_response 404 "Not Found" PNone)) workspace
     = inr [("success", PBool false);
            ("error", PStr "HTTP 错误: 404 - Not Found");
            ("error_code", PStr "HTTP_ERROR")].
Proof.
  destruct (C6_no_retry (api_raises connection_exn) workspace) as (_ & H & _).
  destruct (H ["data"; "inputs"; "input"; "test.pdf"] "Mock PDF content"
              connection_exn eq_refl eq_refl eq_refl) as (_ & _ & Hc & Hev & _).
  destruct (C6_no_retry (api_raises (mkExn ConnectTimeout "timed out" None))
                        workspace) as (_ & Ht & _).
  destruct (Ht ["data"; "inputs"; "input"; "test.pdf"] "Mock PDF content"
               (mkExn ConnectTimeout "timed out" None) eq_refl eq_refl eq_refl)
    as (Hto & _).
  destruct (C6_no_retry (api_returns (json_response 404 "Not Found" PNone))
                        workspace) as (_ & _ & H').
  destruct (H' ["data"; "inputs"; "input"; "test.pdf"] "Mock PDF content"
               (json_response 404 "Not Found" PNone) eq_refl eq_refl eq_refl)
    as (Hout & _); [simpl; lia|].
  split; [exact (Hc eq_refl)|]. split; [now rewrite Hev|].
  split; [exact (Hto eq_refl) | exact Hout].
Defined.

(** ** C7: the result as a function of what the run observes *)




(** ** C2: which exceptions leave [parse_file] *)

(** As stated, C2 fails: a [KeyboardInterrupt] raised during the post is
    not an [Exception] and leaves [parse_file]; and for an [HTTPError]
    that carries no response the handler itself raises
    [AttributeError]. *)
Lemma C2_counterexample :
  outcome (api_raises keyboard_interrupt) workspace = inl keyboard_interrupt
  /\ outcome (api_raises http_error_without_response) workspace
     = inl (mkExn AttributeError
                  "'NoneType' object has no attribute 'status_code'" None).
Proof. split; reflexivity. Qed.

Lemma catchable_handled e :
  catchable e = true ->
  exists d, handler_outcome e = inr d /\ is_failure_result d.
Proof.
  unfold catchable, handler_outcome, handle, parse_file_handlers, is_failure_result.
  intros H. apply andb_prop in H as [Hex Hresp].
  destruct (is_Timeout (cls e));
    [eexists; split; [reflexivity|]; simpl; eauto|].
  destruct (is_ConnectionError (cls e));
    [eexists; split; [reflexivity|]; simpl; eauto|].
  destruct (is_HTTPError (cls e)).
  - destruct (exn_response e); [|discriminate].
    eexists; split; [reflexivity|]; simpl; eauto.
  - rewrite Hex. eexists; split; [reflexivity|]; simpl; eauto.
Qed.

Lemma builtin_catchable e :
  is_builtin (cls e) = true ->
  catchable e = true.
Proof.
  unfold catchable. intros H. destruct (cls e); try discriminate; reflexivity.
Qed.

Lemma read_bytes_raises t p e : read_bytes t p = inl e -> is_OSError (cls e) = true.
Proof.
  unfold read_bytes. destruct (resolve t p) as [[x|es]| |];
    try discriminate; intros [= <-]; reflexivity.
Qed.

(** C2, amended. In every file system, and for every behaviour of the
    API whose exceptions (from the post or from decoding the body) are
    instances of [Exception] and, when they are [HTTPError]s, carry
    their response, [parse_file] returns a result dictionary: either a
    success result, or a failure result with [success] [False], an
    [error] and an [error_code]. *)
Theorem C2_returns_a_result api t :
  (forall c e, api c = inl e -> catchable e = true) ->
  (forall c r e, api c = inr r -> resp_json r = inl e -> catchable e = true) ->
  exists d, outcome api t = inr d
            /\ (dict_get d "success" = Some (PBool true) \/ is_failure_result d).
Proof.
  intros Hapi Hjson. unfold outcome.
  assert (Hfail : forall e s, catchable e = true ->
            exists d, fst (handle e s) = inr d
                      /\ (dict_get d "success" = Some (PBool true)
                          \/ is_failure_result d)).
  { intros e s He. rewrite handle_outcome. simpl.
    destruct (catchable_handled e He) as (d & Hd & Hf). eauto. }
  destruct (run_course api t) as
    [ H0 | f e H0 H1 | f b e H0 H1 H2 | f b r e H0 H1 H2 H3
    | f b r e H0 H1 H2 H3 H4 | f b r v H0 H1 H2 H3 H4 H5
    | f b r j H0 H1 H2 H3 H4 H5 | f b r j e H0 H1 H2 H3 H4 H5 H6
    | f b r j t1 e H0 H1 H2 H3 H4 H5 H6 H7
    | f b r j t1 t2 H0 H1 H2 H3 H4 H5 H6 H7 ].
  - eexists; split; [reflexivity|]. right. unfold is_failure_result. simpl. eauto.
  - apply Hfail, builtin_catchable, OSError_is_builtin.
    eapply read_bytes_raises; eassumption.
  - apply Hfail. eapply Hapi; eassumption.
  - apply Hfail. apply http_error_of_Some in H3 as (Hc & Hr & _).
    unfold catchable. now rewrite Hc, Hr.
  - apply Hfail. eapply Hjson; eassumption.
  - apply Hfail, builtin_catchable. now destruct v.
  - eexists; split; [reflexivity|]. right. unfold is_failure_result. simpl. eauto.
  - apply Hfail, builtin_catchable, OSError_is_builtin.
    eapply mkdir_fuel_raises; exact H6.
  - apply Hfail, builtin_catchable. eapply write_text_raises; exact H7.
  - eexists; split; [reflexivity|]. left. reflexivity.
Qed.

Lemma C2_witness :
  exists d, outcome (api_raises connect_timeout_exn) workspace_outputs_is_file = inr d
            /\ (dict_get d "success" = Some (PBool true) \/ is_failure_result d).
Proof.
  apply (C2_returns_a_result (api_raises connect_timeout_exn)
                             workspace_outputs_is_file).
  - intros c e [= <-]. reflexivity.
  - intros c r e H. discriminate H.
Defined.

(** ** C3: the mapping from exceptions to results *)

(** As stated, C3 fails: [ConnectTimeout] is a [ConnectionError] (and a
    [Timeout]); the clause for [Timeout] comes first, so the result is
    [TIMEOUT].  And a body that is well-formed JSON but not an object
    has no [get]: the result is [UNEXPECTED_ERROR]. *)
Lemma C3_counterexample :
  is_ConnectionError (cls connect_timeout_exn) = true
  /\ outcome (api_raises connect_timeout_exn) workspace = inr timeout_result
  /\ dict_get timeout_result "error_code" <> Some (PStr "CONNECTION_ERROR")
  /\ outcome (api_returns (json_response 200 "" (PList []))) workspace
     = inr (unexpected_error_result (no_get_error (PList []))).
Proof. repeat split; try reflexivity. discriminate. Qed.

(** The codes of the failure results. *)
Lemma failure_codes :
  (dict_get timeout_result "success" = Some (PBool false)
   /\ dict_get timeout_result "error_code" = Some (PStr "TIMEOUT"))
  /\ (dict_get connection_error_result "success" = Some (PBool false)
      /\ dict_get connection_error_result "error_code" = Some (PStr "CONNECTION_ERROR"))
  /\ (forall info,
        dict_get (http_error_result info) "success" = Some (PBool false)
        /\ dict_get (http_error_result info) "error_code" = Some (PStr "HTTP_ERROR"))
  /\ (forall e,
        dict_get (unexpected_error_result e) "success" = Some (PBool false)
        /\ dict_get (unexpected_error_result e) "error_code"
           = Some (PStr "UNEXPECTED_ERROR"))
  /\ (forall m,
        dict_get (parse_failed_result m) "success" = Some (PBool false)
        /\ dict_get (parse_failed_result m) "error" = Some m
        /\ dict_get (parse_failed_result m) "error_code" = Some (PStr "PARSE_FAILED")).
Proof. repeat split. Qed.

(** C3, amended. For a run that reaches the post: a [Timeout] yields
    [TIMEOUT]; a [ConnectionError] that is not also a [Timeout] yields
    [CONNECTION_ERROR]; an [HTTPError] that carries its response, as the
    one raised for a status in 400..599 does, yields [HTTP_ERROR]; any
    other instance of [Exception] yields [UNEXPECTED_ERROR]; and a JSON
    object whose [code] is not 200 yields [PARSE_FAILED] with the
    object's [message], or the default message when it has none, as the
    error.  Each of these results has [success] [False]. *)
Theorem C3_error_mapping api t input_file data :
  first_input t = Some input_file ->
  read_bytes t input_file = inr data ->
  (forall e, api (the_call input_file data) = inl e ->
     is_Timeout (cls e) = true ->
     outcome api t = inr timeout_result)
  /\ (forall e, api (the_call input_file data) = inl e ->
        is_Timeout (cls e) = false ->
        is_ConnectionError (cls e) = true ->
        outcome api t = inr connection_error_result)
  /\ (forall e info, api (the_call input_file data) = inl e ->
        cls e = HTTPError ->
        exn_response e = Some info ->
        outcome api t = inr (http_error_result info))
  /\ (forall r, api (the_call input_file data) = inr r ->
        400 <= status_code (resp_info r) < 600 ->
        outcome api t = inr (http_error_result (resp_info r)))
  /\ (forall e, api (the_call input_file data) = inl e ->
        is_Timeout (cls e) = false ->
        is_ConnectionError (cls e) = false ->
        is_HTTPError (cls e) = false ->
        is_Exception (cls e) = true ->
        outcome api t = inr (unexpected_error_result e))
  /\ (forall r d, api (the_call input_file data) = inr r ->
        http_error_of r = None ->
        resp_json r = inr (PDict d) ->
        py_ne_int (dict_get_default d "code" PNone) 200 = true ->
        outcome api t
        = inr (parse_failed_result (dict_get_default d "message" (PStr "解析失败"))))
  /\ (dict_get timeout_result "error_code" = Some (PStr "TIMEOUT")
      /\ dict_get connection_error_result "error_code" = Some (PStr "CONNECTION_ERROR")
      /\ (forall info, dict_get (http_error_result info) "error_code"
                       = Some (PStr "HTTP_ERROR"))
      /\ (forall e, dict_get (unexpected_error_result e) "error_code"
                    = Some (PStr "UNEXPECTED_ERROR"))
      /\ (forall m, dict_get (parse_failed_result m) "error_code"
                    = Some (PStr "PARSE_FAILED")
                    /\ dict_get (parse_failed_result m) "error" = Some m))
  /\ (dict_get timeout_result "success" = Some (PBool false)
      /\ dict_get connection_error_result "success" = Some (PBool false)
      /\ (forall info, dict_get (http_error_result info) "success"
                       = Some (PBool false))
      /\ (forall e, dict_get (unexpected_error_result e) "success"
                    = Some (PBool false))
      /\ (forall m, dict_get (parse_failed_result m) "success"
                    = Some (PBool false))).
Proof.
  intros Hfirst Hread. unfold outcome.
  repeat apply conj; try (intros; repeat split; reflexivity).
  - intros e Hpost Ht.
    rewrite (run_post_raises api t _ Hfirst _ Hread e Hpost).
    now rewrite handle_Timeout.
  - intros e Hpost Ht Hc.
    rewrite (run_post_raises api t _ Hfirst _ Hread e Hpost).
    now rewrite handle_ConnectionError.
  - intros e info Hpost Hc Hr.
    rewrite (run_post_raises api t _ Hfirst _ Hread e Hpost).
    now rewrite (handle_HTTPError e _ info).
  - intros r Hpost Hst.
    destruct (http_error_of_status r Hst) as (e & He).
    rewrite (run_status_raises api t _ Hfirst _ Hread r Hpost e He).
    apply http_error_of_Some in He as (Hc & Hr & _).
    now rewrite (handle_HTTPError e _ _ Hc Hr).
  - intros e Hpost Ht Hc Hh Hex.
    rewrite (run_post_raises api t _ Hfirst _ Hread e Hpost).
    now rewrite handle_other.
  - intros r d Hpost Hst Hjson Hcode.
    now rewrite (run_parse_failed api t _ Hfirst _ Hread r Hpost Hst d Hjson Hcode).
Qed.

Lemma C3_witness :
  outcome (api_raises connection_exn) workspace = inr connection_error_result
  /\ outcome (api_returns (json_response 200 ""
                (PDict [("code", PInt 500); ("message", PStr "Internal server error")])))
             workspace
     = inr (parse_failed_result (PStr "Internal server error")).
Proof.
  split.
  - destruct (C3_error_mapping (api_raises connection_exn) workspace
                ["data"; "inputs"; "input"; "test.pdf"] "Mock PDF content"
                eq_refl eq_refl) as (_ & H & _).
    apply (H connection_exn); reflexivity.
  - destruct (C3_error_mapping
                (api_returns (json_response 200 ""
                   (PDict [("code", PInt 500);
                           ("message", PStr "Internal server error")])))
                workspace
                ["data"; "inputs"; "input"; "test.pdf"] "Mock PDF content"
                eq_refl eq_refl) as (_ & _ & _ & _ & _ & H & _).
    apply (H (json_response 200 ""
                (PDict [("code", PInt 500);
                        ("message", PStr "Internal server error")]))
             [("code", PInt 500); ("message", PStr "Internal server error")]);
      reflexivity.
Defined.

(** ** C4: the one file that is read and sent *)

(** As stated, C4 fails: with no entry in the input directory nothing is
    read or sent; and when the listing starts with a sub-directory the
    run opens that entry, fails, and sends nothing, although a file
    follows in the listing. *)
Lemma C4_counterexample :
  (opens (events (api_returns (json_response 200 "" success_json)) empty_workspace)
   = []
   /\ posts (events (api_returns (json_response 200 "" success_json)) empty_workspace)
      = [])
  /\ (glob_star workspace_dir_first DATA_INPUTS
      = [["data"; "inputs"; "input"; "sub"]; ["data"; "inputs"; "input"; "a.pdf"]]
      /\ opens (events (api_returns (json_response 200 "" success_json))
                       workspace_dir_first)
         = [["data"; "inputs"; "input"; "sub"]]
      /\ posts (events (api_returns (json_response 200 "" success_json))
                       workspace_dir_first)
         = []).
Proof. repeat split. Qed.

Lemma opens_posts_fs_updates rest :
  forallb is_fs_update rest = true -> opens rest = [] /\ posts rest = [].
Proof.
  induction rest as [|ev rest IH]; [now split|].
  simpl. intros H. apply andb_prop in H as [H1 H2].
  destruct (IH H2) as [Ho Hp]. destruct ev; try discriminate; now split.
Qed.

(** C4, amended. No run opens a file other than the first entry of the
    listing of the input directory, and no run sends anything but that
    entry's name and bytes.  When the first entry is a regular file, the
    run opens exactly that one file and posts exactly once, with its
    name and its bytes, however many entries the directory has. *)
Theorem C4_only_first_entry api t :
  (forall p, In p (opens (events api t)) -> first_input t = Some p)
  /\ (forall c, In c (posts (events api t)) ->
        exists input_file data,
          first_input t = Some input_file
          /\ read_bytes t input_file = inr data
          /\ c = the_call input_file data)
  /\ (forall input_file data,
        first_input t = Some input_file ->
        read_bytes t input_file = inr data ->
        opens (events api t) = [input_file]
        /\ posts (events api t) = [the_call input_file data]).
Proof.
  pose proof (events_course api t) as Hev.
  destruct (first_input t) as [input_file|].
  - destruct (read_bytes t input_file) as [e|data] eqn:Hread.
    + rewrite Hev. simpl. split; [|split].
      * intros p [<-|[]]. reflexivity.
      * intros c [].
      * intros f b [= <-] Hb. congruence.
    + destruct Hev as (rest & -> & Hrest).
      apply opens_posts_fs_updates in Hrest as [Ho Hp].
      unfold opens, posts in *. rewrite !flat_map_app, Ho, Hp. simpl.
      split; [|split].
      * intros p [<-|[]]. reflexivity.
      * intros c [<-|[]]. eauto.
      * intros f b [= <-] Hb. rewrite Hread in Hb. injection Hb as <-. now split.
  - rewrite Hev. simpl. split; [|split].
    + intros p [].
    + intros c [].
    + intros f b Hf. discriminate Hf.
Qed.

Lemma C4_witness :
  glob_star workspace_two_files DATA_INPUTS
  = [["data"; "inputs"; "input"; "b.png"]; ["data"; "inputs"; "input"; "a.pdf"]]
  /\ opens (events (api_returns (json_response 200 "" success_json))
                   workspace_two_files)
     = [["data"; "inputs"; "input"; "b.png"]]
  /\ posts (events (api_returns (json_response 200 "" success_json))
                   workspace_two_files)
     = [the_call ["data"; "inputs"; "input"; "b.png"] "PNG"].
Proof.
  split; [reflexivity|].
  destruct (C4_only_first_entry (api_returns (json_response 200 "" success_json))
                                workspace_two_files) as (_ & _ & H).
  apply (H ["data"; "inputs"; "input"; "b.png"] "PNG"); reflexivity.
Defined.

(** ** C1 and C10: the successful run *)

(** The test [!= 200] of the source lets through the number 200 and
    nothing else. *)
Lemma py_ne_int_200 v : py_ne_int v 200 = false <-> is_200 v.
Proof.
  unfold is_200. split.
  - destruct v as [|b|z|f| | |]; simpl; try discriminate.
    + now destruct b.
    + intros H. apply negb_false_iff, Z.eqb_eq in H. left. now subst.
    + intros H. apply negb_false_iff in H. right. eauto.
  - intros [->|(f & -> & H)]; simpl; [reflexivity | now rewrite H].
Qed.

(** A run that gets an object with code 200 and text for content, and
    whose [mkdir] and [write_text] succeed, returns the success result
    and leaves the text in the output file. *)
Lemma run_success api t input_file data r d s t1 t2 :
  first_input t = Some input_file ->
  read_bytes t input_file = inr data ->
  api (the_call input_file data) = inr r ->
  http_error_of r = None ->
  resp_json r = inr (PDict d) ->
  py_ne_int (code_of d) 200 = false ->
  content_of d = PStr s ->
  mkdir true true t DATA_OUTPUTS = inr t1 ->
  write_text t1 (output_path input_file) (PStr s) = inr t2 ->
  outcome api t
  = inr (success_result (PStr s) (name input_file) (output_filename input_file))
  /\ final_fs api t = t2
  /\ resolve t2 (output_path input_file) = Found (File s)
  /\ is_dir t2 DATA_OUTPUTS = true.
Proof.
  intros Hfirst Hread Hpost Hstatus Hjson Hcode Hcontent Hmk Hw.
  pose proof (run_code_200 api t input_file Hfirst data Hread r Hpost Hstatus
                           d Hjson Hcode) as Hrun.
  cbv zeta in Hrun. fold (content_of d) in Hrun.
  rewrite Hcontent, Hmk, Hw in Hrun.
  unfold outcome, final_fs. rewrite Hrun. simpl fst. simpl snd.
  split; [reflexivity|]. split; [reflexivity|].
  assert (Hd1 : exists es1, resolve t1 DATA_OUTPUTS = Found (Dir es1)).
  { destruct (mkdir_outputs_inr t t1 Hmk) as [(Hst & ->)|(_ & Hd & _)]; eauto.
    unfold outputs_state_of in Hst.
    destruct (resolve t DATA_OUTPUTS) as [[x|es]| |]; try discriminate. eauto. }
  destruct Hd1 as (es1 & Hd1).
  destruct (write_text_put _ _ _ _ Hw) as (s' & Hs & ->). injection Hs as <-.
  change (output_path input_file)
    with (DATA_OUTPUTS ++ [output_filename input_file])%list.
  split.
  - eapply resolve_put; [discriminate | exact Hd1].
  - eapply is_dir_put_child; exact Hd1.
Qed.

(** As stated, C1 fails, in a workspace where nothing stands in the way
    of the output file.  When the [content] field of the response is
    [null], [write_text] refuses it: the result is [UNEXPECTED_ERROR]
    and no file is written.  When [content] is a string with a lone
    surrogate, which JSON can carry, the text cannot be encoded: the
    result is [UNEXPECTED_ERROR] and the output file is left empty. *)
Lemma C1_counterexample :
  (outcome (api_returns (json_response 200 ""
              (PDict [("code", PInt 200); ("content", PNone)])))
           workspace
   = inr [("success", PBool false);
          ("error", PStr "data must be str, not NoneType");
          ("error_code", PStr "UNEXPECTED_ERROR")]
   /\ resolve (final_fs (api_returns (json_response 200 ""
                           (PDict [("code", PInt 200); ("content", PNone)])))
                        workspace)
              ["data"; "outputs"; "test_parsed.md"] = NoEnt)
  /\ (outcome (api_returns (json_response 200 ""
                 (PDict [("code", PInt 200); ("content", PStr lone_surrogate)])))
              workspace
      = inr [("success", PBool false);
             ("error", PStr ("'utf-8' codec can't encode character '"
                             ++ String backslash "ud800"
                             ++ "' in position 0: surrogates not allowed"));
             ("error_code", PStr "UNEXPECTED_ERROR")]
      /\ resolve (final_fs (api_returns (json_response 200 ""
                              (PDict [("code", PInt 200);
                                      ("content", PStr lone_surrogate)])))
                           workspace)
                 ["data"; "outputs"; "test_parsed.md"] = Found (File "")).
Proof. repeat split. Qed.

(** C1, amended. When the first entry of the input directory is a
    regular file, the post returns a response without an error status
    whose body is a JSON object with [code] 200 and a string for
    [content], and both the [mkdir] of [data/outputs] and the write of
    the output file succeed, [parse_file] returns the success result
    whose [content] is that string and whose [output_file] is
    [<input stem>_parsed.md]; the file system it leaves is the one the
    write produced, in which [data/outputs] is a directory and the file
    [data/outputs/<input stem>_parsed.md] holds exactly that string. *)
Theorem C1_success api t input_file data r d code s t1 t2 :
  first_input t = Some input_file ->
  read_bytes t input_file = inr data ->
  api (the_call input_file data) = inr r ->
  http_error_of r = None ->
  resp_json r = inr (PDict d) ->
  dict_get d "code" = Some code ->
  is_200 code ->
  dict_get d "content" = Some (PStr s) ->
  mkdir true true t ["data"; "outputs"] = inr t1 ->
  write_text t1 ["data"; "outputs"; stem input_file ++ "_parsed.md"] (PStr s)
  = inr t2 ->
  outcome api t
  = inr [("success", PBool true);
         ("message", PStr "文件解析成功");
         ("content", PStr s);
         ("input_file", PStr (name input_file));
         ("output_file", PStr (stem input_file ++ "_parsed.md"))]
  /\ final_fs api t = t2
  /\ resolve t2 ["data"; "outputs"; stem input_file ++ "_parsed.md"]
     = Found (File s)
  /\ is_dir t2 ["data"; "outputs"] = true.
Proof.
  intros Hfirst Hread Hpost Hstatus Hjson Hcode H200 Hcontent Hmk Hw.
  apply (run_success api t input_file data r d s t1 t2); try assumption.
  - apply py_ne_int_200. unfold code_of, dict_get_default. now rewrite Hcode.
  - unfold content_of, dict_get_default. now rewrite Hcontent.
Qed.

Lemma C1_witness :
  outcome (api_returns (json_response 200 "" success_json)) workspace
  = inr [("success", PBool true);
         ("message", PStr "文件解析成功");
         ("content", PStr "# Test Document");
         ("input_file", PStr "test.pdf");
         ("output_file", PStr "test_parsed.md")]
  /\ final_fs (api_returns (json_response 200 "" success_json)) workspace
     = Dir [("data",
             Dir [("inputs",
                   Dir [("input", Dir [("test.pdf", File "Mock PDF content")])]);
                  ("outputs",
                   Dir [("test_parsed.md", File "# Test Document")])])]
  /\ resolve (Dir [("data",
             Dir [("inputs",
                   Dir [("input", Dir [("test.pdf", File "Mock PDF content")])]);
                  ("outputs",
                   Dir [("test_parsed.md", File "# Test Document")])])])
             ["data"; "outputs"; "test_parsed.md"]
     = Found (File "# Test Document")
  /\ is_dir (Dir [("data",
             Dir [("inputs",
                   Dir [("input", Dir [("test.pdf", File "Mock PDF content")])]);
                  ("outputs",
                   Dir [("test_parsed.md", File "# Test Document")])])])
            ["data"; "outputs"] = true.
Proof.
  apply (C1_success (api_returns (json_response 200 "" success_json)) workspace
                    ["data"; "inputs"; "input"; "test.pdf"] "Mock PDF content"
                    (json_response 200 "" success_json)
                    [("code", PInt 200); ("message", PStr "success");
                     ("content", PStr "# Test Document")]
                    (PInt 200) "# Test Document"
                    (Dir [("data",
                           Dir [("inputs",
                                 Dir [("input",
                                       Dir [("test.pdf", File "Mock PDF content")])]);
                                ("outputs", Dir [])])])).
  - reflexivity.
  - reflexivity.
  - reflexivity.
  - reflexivity.
  - reflexivity.
  - reflexivity.
  - left. reflexivity.
  - reflexivity.
  - reflexivity.
  - reflexivity.
Defined.

(** C10. When the response is a JSON object with [code] 200 and no
    [content] field, the content defaults to the empty string: provided
    the [mkdir] of [data/outputs] and the write of the output file
    succeed, [parse_file] returns the success result with the empty
    string for [content], and the output file is there afterwards and
    is empty. *)
Theorem C10_missing_content api t input_file data r d code t1 t2 :
  first_input t = Some input_file ->
  read_bytes t input_file = inr data ->
  api (the_call input_file data) = inr r ->
  http_error_of r = None ->
  resp_json r = inr (PDict d) ->
  dict_get d "code" = Some code ->
  is_200 code ->
  dict_get d "content" = None ->
  mkdir true true t ["data"; "outputs"] = inr t1 ->
  write_text t1 ["data"; "outputs"; stem input_file ++ "_parsed.md"] (PStr "")
  = inr t2 ->
  outcome api t
  = inr [("success", PBool true);
         ("message", PStr "文件解析成功");
         ("content", PStr "");
         ("input_file", PStr (name input_file));
         ("output_file", PStr (stem input_file ++ "_parsed.md"))]
  /\ final_fs api t = t2
  /\ resolve (final_fs api t) ["data"; "outputs"; stem input_file ++ "_parsed.md"]
     = Found (File "").
Proof.
  intros Hfirst Hread Hpost Hstatus Hjson Hcode H200 Hcontent Hmk Hw.
  destruct (run_success api t input_file data r d "" t1 t2)
    as (H1 & H2 & H3 & _); try assumption.
  - apply py_ne_int_200. unfold code_of, dict_get_default. now rewrite Hcode.
  - unfold content_of, dict_get_default. now rewrite Hcontent.
  - split; [exact H1|]. split; [exact H2|]. rewrite H2. exact H3.
Qed.

Lemma C10_witness :
  outcome (api_returns (json_response 200 "" (PDict [("code", PInt 200)])))
          workspace
  = inr [("success", PBool true);
         ("message", PStr "文件解析成功");
         ("content", PStr "");
         ("input_file", PStr "test.pdf");
         ("output_file", PStr "test_parsed.md")]
  /\ resolve (final_fs (api_returns (json_response 200 ""
                                      (PDict [("code", PInt 200)])))
                       workspace)
             ["data"; "outputs"; "test_parsed.md"]
     = Found (File "").
Proof.
  destruct (C10_missing_content
              (api_returns (json_response 200 "" (PDict [("code", PInt 200)])))
              workspace
              ["data"; "inputs"; "input"; "test.pdf"] "Mock PDF content"
              (json_response 200 "" (PDict [("code", PInt 200)]))
              [("code", PInt 200)] (PInt 200)
              (Dir [("data",
                     Dir [("inputs",
                           Dir [("input",
                                 Dir [("test.pdf", File "Mock PDF content")])]);
                          ("outputs", Dir [])])])
              (Dir [("data",
                     Dir [("inputs",
                           Dir [("input",
                                 Dir [("test.pdf", File "Mock PDF content")])]);
                          ("outputs", Dir [("test_parsed.md", File "")])])]))
    as (H1 & _ & H3).
  - reflexivity.
  - reflexivity.
  - reflexivity.
  - reflexivity.
  - reflexivity.
  - reflexivity.
  - left. reflexivity.
  - reflexivity.
  - reflexivity.
  - reflexivity.
  - split; [exact H1 | exact H3].
Defined.


(** * Further properties of [parse_file] *)

(** ** Shared facts *)

Lemma code_200 d :
  py_ne_int (code_of d) 200 = false ->
  exists code, dict_get d "code" = Some code /\ is_200 code.
Proof.
  unfold code_of, dict_get_default.
  destruct (dict_get d "code") as [v|]; [|discriminate].
  intros H. exists v. split; [reflexivity | now apply py_ne_int_200].
Qed.

(** What a handler returns is a failure result with one of four codes;
    what it lets through is an exception of the environment that is no
    [Exception], or the [AttributeError] raised for an [HTTPError]
    without a response. *)
Lemma handle_inv e s :
  (exists m code,
      handle e s = (inr [("success", PBool false); ("error", PStr m);
                         ("error_code", PStr code)], s)
      /\ In code ["TIMEOUT"; "CONNECTION_ERROR"; "HTTP_ERROR"; "UNEXPECTED_ERROR"])
  \/ (handle e s = (inl e, s) /\ is_Exception (cls e) = false)
  \/ (handle e s = (inl no_status_code_error, s)
      /\ is_HTTPError (cls e) = true /\ exn_response e = None).
Proof.
  unfold handle, parse_file_handlers.
  destruct (is_Timeout (cls e)).
  { left. do 2 eexists. split; [reflexivity|]. simpl; auto. }
  destruct (is_ConnectionError (cls e)).
  { left. do 2 eexists. split; [reflexivity|]. simpl; auto. }
  destruct (is_HTTPError (cls e)).
  - destruct (exn_response e) as [info|].
    + left. do 2 eexists. split; [reflexivity|]. simpl; auto.
    + right; right. repeat split.
  - destruct (is_Exception (cls e)).
    + left. do 2 eexists. split; [reflexivity|]. simpl; auto 6.
    + right; left. split; reflexivity.
Qed.

Lemma handle_not_success e s d :
  fst (handle e s) = inr d -> dict_get d "success" = Some (PBool false).
Proof.
  destruct (handle_inv e s) as [(m & code & -> & _)|[[-> _]|[-> _]]]; simpl;
    try discriminate.
  now intros [= <-].
Qed.

Lemma write_text_result t p data t' :
  write_text t p data = inr t' ->
  exists s, data = PStr s /\ resolve t' p = Found (File s).
Proof.
  intros H. destruct (write_text_put _ _ _ _ H) as (s & -> & ->).
  exists s. split; [reflexivity|].
  destruct p as [|c p]; [discriminate|].
  rewrite write_text_str in H by discriminate.
  destruct (resolve t (parent (c :: p))) as [[x|es]| |] eqn:Hpar; try discriminate.
  apply (resolve_put (c :: p) (File s) t es); [discriminate | exact Hpar].
Qed.

Ltac by_course api t :=
  destruct (run_course api t) as
    [ H0 | f ex H0 H1 | f b ex H0 H1 H2 | f b r ex H0 H1 H2 H3
    | f b r ex H0 H1 H2 H3 H4 | f b r v H0 H1 H2 H3 H4 H5
    | f b r j H0 H1 H2 H3 H4 H5 | f b r j ex H0 H1 H2 H3 H4 H5 H6
    | f b r j t1 ex H0 H1 H2 H3 H4 H5 H6 H7
    | f b r j t1 t2 H0 H1 H2 H3 H4 H5 H6 H7 ].

(** ** Success means the work was done *)

(** X1. A result with [success] [True] is returned only at the end of
    the full course: the first entry of the input directory was read,
    the one post returned a response without an error status whose body
    is an object with [code] 200, its content is a string, the output
    file holds exactly that string, and the result names the input and
    the output file. *)
Theorem success_is_sound api t d :
  outcome api t = inr d ->
  dict_get d "success" = Some (PBool true) ->
  exists input_file data r j s,
    first_input t = Some input_file
    /\ read_bytes t input_file = inr data
    /\ api (the_call input_file data) = inr r
    /\ http_error_of r = None
    /\ resp_json r = inr (PDict j)
    /\ (exists code, dict_get j "code" = Some code /\ is_200 code)
    /\ dict_get_default j "content" (PStr "") = PStr s
    /\ d = success_result (PStr s) (name input_file)
                          (stem input_file ++ "_parsed.md")
    /\ resolve (final_fs api t) ["data"; "outputs"; stem input_file ++ "_parsed.md"]
       = Found (File s)
    /\ posts (events api t) = [the_call input_file data].
Proof.
  unfold outcome, final_fs, events. by_course api t; intros Hd Hs;
    try (apply handle_not_success in Hd; congruence);
    try (simpl in Hd; injection Hd as <-; discriminate).
  destruct (write_text_result _ _ _ _ H7) as (s & Hc & Hres).
  simpl in Hd. injection Hd as <-.
  exists f, b, r, j, s. rewrite Hc.
  repeat (split; [assumption || (now apply code_200) || reflexivity|]).
  reflexivity.
Qed.

Lemma success_is_sound_witness :
  exists input_file data r j s,
    first_input workspace = Some input_file
    /\ read_bytes workspace input_file = inr data
    /\ api_returns (json_response 200 "" success_json) (the_call input_file data)
       = inr r
    /\ http_error_of r = None
    /\ resp_json r = inr (PDict j)
    /\ (exists code, dict_get j "code" = Some code /\ is_200 code)
    /\ dict_get_default j "content" (PStr "") = PStr s
    /\ success_result (PStr "# Test Document") "test.pdf" "test_parsed.md"
       = success_result (PStr s) (name input_file)
                        (stem input_file ++ "_parsed.md")
    /\ resolve (final_fs (api_returns (json_response 200 "" success_json)) workspace)
               ["data"; "outputs"; stem input_file ++ "_parsed.md"]
       = Found (File s)
    /\ posts (events (api_returns (json_response 200 "" success_json)) workspace)
       = [the_call input_file data].
Proof.
  apply (success_is_sound (api_returns (json_response 200 "" success_json))
                          workspace
                          (success_result (PStr "# Test Document") "test.pdf"
                                          "test_parsed.md")).
  - reflexivity.
  - reflexivity.
Defined.

(** ** The shape of every result *)

(** X2. Every dictionary that [parse_file] returns is either the success
    result (with keys [success], [message], [content], [input_file],
    [output_file], the content a string) or a failure result with
    exactly the keys [success], [error], [error_code], whose code is one
    of the six codes of the source. *)
Theorem result_shape api t d :
  outcome api t = inr d ->
  (exists content input_name output_name,
      d = [("success", PBool true); ("message", PStr "文件解析成功");
           ("content", PStr content); ("input_file", PStr input_name);
           ("output_file", PStr output_name)])
  \/ (exists message code,
         d = [("success", PBool false); ("error", message);
              ("error_code", PStr code)]
         /\ In code error_codes).
Proof.
  unfold outcome. by_course api t; intros Hd;
    try (match type of Hd with
         | fst (handle ?e ?s) = _ =>
             destruct (handle_inv e s) as [(m & code & Hh & Hin)|[[Hh _]|[Hh _]]];
             rewrite Hh in Hd; simpl in Hd; try discriminate;
             injection Hd as <-; right; exists (PStr m), code;
             split; [reflexivity|];
             simpl in Hin |- *; intuition
         end).
  - simpl in Hd. injection Hd as <-. right. do 2 eexists.
    split; [reflexivity|]. simpl; auto.
  - simpl in Hd. injection Hd as <-. right. do 2 eexists.
    split; [reflexivity|]. simpl; auto.
  - destruct (write_text_result _ _ _ _ H7) as (s & Hc & _).
    simpl in Hd. injection Hd as <-. rewrite Hc. left.
    do 3 eexists. reflexivity.
Qed.

Lemma result_shape_witness :
  (exists content input_name output_name,
      timeout_result
      = [("success", PBool true); ("message", PStr "文件解析成功");
         ("content", PStr content); ("input_file", PStr input_name);
         ("output_file", PStr output_name)])
  \/ (exists message code,
         timeout_result
         = [("success", PBool false); ("error", message);
            ("error_code", PStr code)]
         /\ In code error_codes).
Proof.
  apply (result_shape (api_raises timeout_exn) workspace timeout_result).
  reflexivity.
Defined.

(** ** When [parse_file] raises *)

Lemma builtin_is_Exception e :
  is_builtin (cls e) = true ->
  is_Exception (cls e) = true /\ is_HTTPError (cls e) = false.
Proof. intros H; destruct (cls e); try discriminate; now split. Qed.

(** X3. An exception leaves [parse_file] in two cases only: the
    environment (the post, or the decoding of the body) raised an
    exception that is no instance of [Exception], which propagates as it
    is; or it raised an [HTTPError] without a response, and the handler
    raises [AttributeError].  In both cases the file system is as it
    was, and neither [mkdir] nor a write was attempted. *)
Theorem raise_is_clean api t e :
  outcome api t = inl e ->
  final_fs api t = t
  /\ forallb (fun ev => negb (is_fs_update ev)) (events api t) = true
  /\ ((is_Exception (cls e) = false /\ api_raised api e)
      \/ (e = no_status_code_error
          /\ exists e0, api_raised api e0
                        /\ is_HTTPError (cls e0) = true
                        /\ exn_response e0 = None)).
Proof.
  unfold outcome, final_fs, events.
  assert (Hb : forall e0 s,
             is_builtin (cls e0) = true ->
             fst (handle e0 s) = inl e -> False).
  { intros e0 s H. rewrite (handle_builtin e0 s H). discriminate. }
  assert (Ha : forall e0 s,
             api_raised api e0 -> fst (handle e0 s) = inl e ->
             (is_Exception (cls e) = false /\ api_raised api e)
             \/ (e = no_status_code_error
                 /\ exists e1, api_raised api e1
                               /\ is_HTTPError (cls e1) = true
                               /\ exn_response e1 = None)).
  { intros e0 s Hr.
    destruct (handle_inv e0 s) as [(m & code & -> & _)|[[-> Hx]|[-> [Hh Hn]]]];
      simpl; try discriminate; intros [= <-].
    - left. now split.
    - right. split; [reflexivity|]. eauto. }
  by_course api t; rewrite ?handle_state; simpl; intros He;
    try discriminate;
    try (split; [reflexivity|]; split; [reflexivity|]).
  - exfalso. eapply Hb; [|exact He].
    apply OSError_is_builtin. eapply read_bytes_raises; eassumption.
  - eapply Ha; [|exact He]. left. eauto.
  - exfalso. apply http_error_of_Some in H3 as (Hc & Hr & _).
    destruct (handle_inv ex (after_post t f b))
      as [(m & code & Hh & _)|[[Hh Hx]|[Hh [_ Hn]]]];
      rewrite Hh in He; simpl in He; try discriminate.
    + rewrite Hc in Hx. discriminate.
    + congruence.
  - eapply Ha; [|exact He]. right. eauto.
  - exfalso. eapply Hb; [|exact He].
    apply OSError_is_builtin. eapply mkdir_fuel_raises; exact H6.
  - exfalso. eapply Hb; [|exact He]. eapply write_text_raises; exact H7.
Qed.

Lemma raise_is_clean_witness :
  final_fs (api_raises keyboard_interrupt) workspace = workspace
  /\ forallb (fun ev => negb (is_fs_update ev))
             (events (api_raises keyboard_interrupt) workspace) = true
  /\ ((is_Exception (cls keyboard_interrupt) = false
       /\ api_raised (api_raises keyboard_interrupt) keyboard_interrupt)
      \/ (keyboard_interrupt = no_status_code_error
          /\ exists e0, api_raised (api_raises keyboard_interrupt) e0
                        /\ is_HTTPError (cls e0) = true
                        /\ exn_response e0 = None)).
Proof.
  apply (raise_is_clean (api_raises keyboard_interrupt) workspace keyboard_interrupt).
  reflexivity.
Defined.

(** ** What a failure leaves behind *)



(** ** Nothing is written before the API has answered with code 200 *)

(** X6. If a run attempts the [mkdir] of the output directory or a
    write, or leaves the file system changed, then its post returned a
    response without an error status whose body is a JSON object with
    [code] 200. *)
Theorem writes_only_after_code_200 api t :
  existsb is_fs_update (events api t) = true \/ final_fs api t <> t ->
  exists input_file data r j,
    first_input t = Some input_file
    /\ read_bytes t input_file = inr data
    /\ api (the_call input_file data) = inr r
    /\ http_error_of r = None
    /\ resp_json r = inr (PDict j)
    /\ exists code, dict_get j "code" = Some code /\ is_200 code.
Proof.
  unfold events, final_fs.
  by_course api t; rewrite ?handle_state; simpl;
    try (intros [H|H]; [discriminate | congruence]);
    intros _; exists f, b, r, j; repeat split; try assumption;
    now apply code_200.
Qed.

Lemma writes_only_after_code_200_witness :
  exists input_file data r j,
    first_input workspace = Some input_file
    /\ read_bytes workspace input_file = inr data
    /\ api_returns (json_response 200 "" success_json) (the_call input_file data)
       = inr r
    /\ http_error_of r = None
    /\ resp_json r = inr (PDict j)
    /\ exists code, dict_get j "code" = Some code /\ is_200 code.
Proof.
  apply (writes_only_after_code_200
           (api_returns (json_response 200 "" success_json)) workspace).
  left. reflexivity.
Defined.

(** ** Edge cases of the input and of the response *)

Lemma repr_char_plain a :
  is_plain_char a = true ->
  repr_char single_quote a = String a "" /\ Ascii.eqb a single_quote = false.
Proof.
  destruct a as [[] [] [] [] [] [] [] []]; intros H; try discriminate H;
    split; reflexivity.
Qed.

Lemma py_repr_plain s :
  is_plain s = true -> py_repr s = "'" ++ s ++ "'".
Proof.
  intros H.
  assert (Hs : has_char single_quote s = false
               /\ repr_body single_quote s = s).
  { induction s as [|a s IH]; [now split|].
    simpl in H. apply andb_prop in H as [Ha Hs].
    destruct (IH Hs) as [H1 H2].
    destruct (repr_char_plain a Ha) as [Hr Hq].
    simpl. rewrite Hr, Hq, H1, H2. now split. }
  destruct Hs as [H1 H2]. unfold py_repr. rewrite H1. simpl andb.
  cbv beta iota zeta. now rewrite H2.
Qed.

(** X7. The glob returns directories too: when the first entry of the
    input directory is a sub-directory, opening it raises
    [IsADirectoryError] and the result is [UNEXPECTED_ERROR] with the
    text of that exception, which for a path of plain characters is
    [[Errno 21] Is a directory: '<path>']; no request is made and the
    file system is left as it was, whatever files follow in the
    listing. *)
Theorem directory_listed_first api t input_file es :
  first_input t = Some input_file ->
  resolve t input_file = Found (Dir es) ->
  exists e,
    read_bytes t input_file = inl e
    /\ cls e = IsADirectoryError
    /\ (is_plain (path_str input_file) = true ->
        exn_str e = "[Errno 21] Is a directory: '" ++ path_str input_file ++ "'")
    /\ outcome api t
       = inr [("success", PBool false);
              ("error", PStr (exn_str e));
              ("error_code", PStr "UNEXPECTED_ERROR")]
    /\ posts (events api t) = []
    /\ final_fs api t = t.
Proof.
  intros Hfirst Hres.
  assert (Hread : read_bytes t input_file
                  = inl (os_error IsADirectoryError "[Errno 21] Is a directory"
                                  (path_str input_file)))
    by (unfold read_bytes; now rewrite Hres).
  eexists. split; [exact Hread|]. split; [reflexivity|]. split.
  - intros Hp. unfold os_error. cbn [exn_str]. now rewrite (py_repr_plain _ Hp).
  - unfold outcome, events, final_fs.
    rewrite (run_open_fails api t input_file Hfirst _ Hread).
    repeat split.
Qed.

Lemma directory_listed_first_witness :
  outcome (api_returns (json_response 200 "" success_json)) workspace_dir_first
  = inr [("success", PBool false);
         ("error", PStr "[Errno 21] Is a directory: 'data/inputs/input/sub'");
         ("error_code", PStr "UNEXPECTED_ERROR")]
  /\ posts (events (api_returns (json_response 200 "" success_json))
                   workspace_dir_first) = []
  /\ final_fs (api_returns (json_response 200 "" success_json)) workspace_dir_first
     = workspace_dir_first.
Proof.
  destruct (directory_listed_first
              (api_returns (json_response 200 "" success_json))
              workspace_dir_first
              ["data"; "inputs"; "input"; "sub"] [] eq_refl eq_refl)
    as (e & _ & _ & Htext & Hout & Hposts & Hfs).
  rewrite (Htext eq_refl) in Hout.
  split; [exact Hout|]. split; [exact Hposts | exact Hfs].
Defined.

(** X8. Only the number 200 counts as success: for a JSON object whose
    [code] is missing, or is any value other than the number 200 (the
    string ["200"], [true], [null], another integer, a float of another
    value), the result is [PARSE_FAILED]; its error is the object's
    [message], or the default message when the object has none.  Nothing
    is written and exactly one request has been made. *)
Theorem code_other_than_200 api t input_file data r j :
  first_input t = Some input_file ->
  read_bytes t input_file = inr data ->
  api (the_call input_file data) = inr r ->
  http_error_of r = None ->
  resp_json r = inr (PDict j) ->
  (forall code, dict_get j "code" = Some code -> ~ is_200 code) ->
  outcome api t
  = inr [("success", PBool false);
         ("error", match dict_get j "message" with
                   | Some m => m
                   | None => PStr "解析失败"
                   end);
         ("error_code", PStr "PARSE_FAILED")]
  /\ final_fs api t = t
  /\ posts (events api t) = [the_call input_file data].
Proof.
  intros Hfirst Hread Hpost Hstatus Hjson Hcode.
  assert (Hne : py_ne_int (dict_get_default j "code" PNone) 200 = true).
  { unfold dict_get_default. destruct (dict_get j "code") as [v|]; [|reflexivity].
    destruct (py_ne_int v 200) eqn:E; [reflexivity|].
    apply py_ne_int_200 in E. now destruct (Hcode v eq_refl). }
  unfold outcome, events, final_fs.
  rewrite (run_parse_failed api t input_file Hfirst data Hread r Hpost Hstatus
                            j Hjson Hne).
  repeat split.
Qed.

Lemma code_other_than_200_witness :
  outcome (api_returns (json_response 200 "" (PDict [("code", PStr "200")])))
          workspace
  = inr [("success", PBool false);
         ("error", PStr "解析失败");
         ("error_code", PStr "PARSE_FAILED")]
  /\ final_fs (api_returns (json_response 200 "" (PDict [("code", PStr "200")])))
              workspace
     = workspace.
Proof.
  destruct (code_other_than_200
              (api_returns (json_response 200 "" (PDict [("code", PStr "200")])))
              workspace
              ["data"; "inputs"; "input"; "test.pdf"] "Mock PDF content"
              (json_response 200 "" (PDict [("code", PStr "200")]))
              [("code", PStr "200")])
    as (H1 & H2 & _); try reflexivity.
  - intros code [= <-] [H|(f & H & _)]; discriminate H.
  - split; assumption.
Defined.

(** X9. A body that cannot be decoded: when [response.json()] raises
    its [JSONDecodeError], the result is [UNEXPECTED_ERROR] with the
    text of the exception as the error; the request is not repeated and
    nothing is written. *)
Theorem undecodable_body api t input_file data r e :
  first_input t = Some input_file ->
  read_bytes t input_file = inr data ->
  api (the_call input_file data) = inr r ->
  http_error_of r = None ->
  resp_json r = inl e ->
  cls e = JSONDecodeError ->
  outcome api t
  = inr [("success", PBool false);
         ("error", PStr (exn_str e));
         ("error_code", PStr "UNEXPECTED_ERROR")]
  /\ final_fs api t = t
  /\ events api t = [EvGlob DATA_INPUTS; EvOpen input_file;
                     EvPost (the_call input_file data)].
Proof.
  intros Hfirst Hread Hpost Hstatus Hjson Hcls.
  unfold outcome, events, final_fs.
  rewrite (run_json_raises api t input_file Hfirst data Hread r Hpost Hstatus
                           e Hjson).
  rewrite handle_other by (rewrite Hcls; reflexivity).
  repeat split.
Qed.

Lemma undecodable_body_witness :
  outcome (api_returns html_response) workspace
  = inr [("success", PBool false);
         ("error", PStr "Expecting value: line 1 column 1 (char 0)");
         ("error_code", PStr "UNEXPECTED_ERROR")]
  /\ final_fs (api_returns html_response) workspace = workspace.
Proof.
  destruct (undecodable_body (api_returns html_response) workspace
              ["data"; "inputs"; "input"; "test.pdf"] "Mock PDF content"
              html_response
              (mkExn JSONDecodeError "Expecting value: line 1 column 1 (char 0)" None))
    as (H1 & H2 & _); try reflexivity.
  split; assumption.
Defined.

(** ** What a run changes in the file system *)

(** Two paths of which neither is a prefix of the other part at some
    component. *)
Lemma paths_diverge p : forall q,
  is_prefix p q = false -> is_prefix q p = false ->
  exists r a b p' q', a <> b /\ p = (r ++ a :: p')%list /\ q = (r ++ b :: q')%list.
Proof.
  induction p as [|a p IH]; intros q Hpq Hqp; [discriminate|].
  destruct q as [|b q]; [discriminate|].
  simpl in Hpq, Hqp.
  destruct (String.eqb_spec a b) as [->|Hab].
  - rewrite String.eqb_refl in Hqp. simpl in Hpq, Hqp.
    destruct (IH q Hpq Hqp) as (r & a' & b' & p' & q' & Hne & -> & ->).
    exists (b :: r), a', b', p', q'. now repeat split.
  - exists [], a, b, p, q. now repeat split.
Qed.

Lemma resolve_put_apart p q v t :
  is_prefix p q = false -> is_prefix q p = false ->
  resolve (put p v t) q = resolve t q.
Proof.
  intros Hpq Hqp.
  destruct (paths_diverge p q Hpq Hqp) as (r & a & b & p' & q' & Hne & -> & ->).
  now apply resolve_put_diverge.
Qed.

(** The [mkdir] of the output directory changes the resolution of no
    path but [data/outputs] and the directories above it. *)
Ltac walk :=
  repeat (progress (cbn [resolve option_map];
                    rewrite ?entry_map_entry, ?entry_set_entry;
                    repeat match goal with
                           | H : entry _ _ = _ |- _ => rewrite H
                           end)).

Lemma mkdir_outputs_frame t t1 q :
  mkdir true true t DATA_OUTPUTS = inr t1 ->
  is_prefix q DATA_OUTPUTS = false ->
  resolve t1 q = resolve t q.
Proof.
  unfold mkdir, DATA_OUTPUTS.
  change (List.length ["data"; "outputs"]) with 2%nat.
  destruct t as [d|es]; [discriminate|].
  destruct (entry "data" es) as [[d|es1]|] eqn:E1.
  - crunch. discriminate.
  - destruct (entry "outputs" es1) as [[d|es2]|] eqn:E2;
      crunch; try discriminate; intros [= <-]; try reflexivity.
    intros Hq. destruct q as [|c q]; [discriminate|]. simpl in Hq.
    destruct (String.eqb_spec c "data") as [->|Hc].
    + walk. destruct q as [|c' q]; [discriminate|]. simpl in Hq.
      destruct (String.eqb_spec c' "outputs") as [->|Hc'].
      * walk. destruct q as [|c'' q]; [discriminate|]. reflexivity.
      * walk. now rewrite entry_set_entry_other by congruence.
    + walk. now rewrite entry_map_entry_other by congruence.
  - crunch. intros [= <-] Hq.
    destruct q as [|c q]; [discriminate|]. simpl in Hq.
    destruct (String.eqb_spec c "data") as [->|Hc].
    + walk. destruct q as [|c' q]; [discriminate|]. simpl in Hq.
      destruct (String.eqb_spec c' "outputs") as [->|Hc'].
      * walk. destruct q as [|c'' q]; [discriminate|]. reflexivity.
      * walk. now rewrite entry_set_entry_other by congruence.
    + walk. rewrite entry_map_entry_other by congruence.
      now rewrite entry_set_entry_other by congruence.
Qed.

Lemma is_prefix_refl p : is_prefix p p = true.
Proof. induction p as [|a p IH]; simpl; [reflexivity|]. now rewrite String.eqb_refl. Qed.

Lemma is_prefix_snoc q : forall d nm,
  is_prefix q (d ++ [nm])%list = true ->
  is_prefix q d = true \/ q = (d ++ [nm])%list.
Proof.
  induction q as [|a q IH]; intros d nm H; [now left|].
  destruct d as [|b d]; simpl in H |- *.
  - apply andb_prop in H as [Ha Hq]. apply String.eqb_eq in Ha as ->.
    destruct q; [now right | discriminate].
  - apply andb_prop in H as [Ha Hq]. rewrite Ha. simpl.
    apply String.eqb_eq in Ha as ->.
    destruct (IH d nm Hq) as [H| ->]; [now left | now right].
Qed.

(** X5. A run changes nothing in the file system but the output file
    and the directories that lead to it: every path that is neither
    [data/outputs] or a directory above it, nor the output file or a
    path through it, resolves after the run as it did before.  The
    input directory and its files, and the other files of
    [data/outputs], are among them. *)
Theorem run_frame api t q :
  is_prefix q ["data"; "outputs"] = false ->
  (forall input_file,
      first_input t = Some input_file ->
      is_prefix ["data"; "outputs"; stem input_file ++ "_parsed.md"] q = false) ->
  resolve (final_fs api t) q = resolve t q.
Proof.
  intros Hq Hout. unfold final_fs.
  assert (Hput : forall f v t1,
            first_input t = Some f ->
            mkdir true true t DATA_OUTPUTS = inr t1 ->
            resolve (put (output_path f) v t1) q = resolve t q).
  { intros f v t1 H0 H6.
    specialize (Hout f H0). fold (output_filename f) in Hout.
    fold (output_path f) in Hout.
    rewrite resolve_put_apart; [now apply mkdir_outputs_frame | exact Hout |].
    destruct (is_prefix q (output_path f)) eqn:Hp; [|reflexivity].
    change (output_path f) with (DATA_OUTPUTS ++ [output_filename f])%list in Hp.
    apply is_prefix_snoc in Hp as [Hp| ->].
    + unfold DATA_OUTPUTS in Hp. congruence.
    + change (DATA_OUTPUTS ++ [output_filename f])%list with (output_path f) in Hout.
      rewrite is_prefix_refl in Hout. discriminate. }
  by_course api t; rewrite ?handle_state; simpl fs; try reflexivity.
  - destruct (write_fails_leaves t (output_filename f) (content_of j) t1 ex H6 H7)
      as [Hl|(_ & Hl & _)]; fold (output_path f) in *; rewrite Hl.
    + now apply mkdir_outputs_frame.
    + now apply Hput.
  - destruct (write_text_put _ _ _ _ H7) as (s & _ & ->). now apply Hput.
Qed.

Lemma run_frame_witness :
  resolve (final_fs (api_returns (json_response 200 "" success_json))
                    workspace_with_notes) ["notes.txt"]
  = Found (File "remember")
  /\ resolve (final_fs (api_returns (json_response 200 "" success_json))
                       workspace_with_notes)
             ["data"; "inputs"; "input"; "test.pdf"]
     = Found (File "Mock PDF content").
Proof.
  split.
  - rewrite (run_frame (api_returns (json_response 200 "" success_json))
                       workspace_with_notes ["notes.txt"]).
    + reflexivity.
    + reflexivity.
    + intros f [= <-]. reflexivity.
  - rewrite (run_frame (api_returns (json_response 200 "" success_json))
                       workspace_with_notes
                       ["data"; "inputs"; "input"; "test.pdf"]).
    + reflexivity.
    + reflexivity.
    + intros f [= <-]. reflexivity.
Defined.

(** ** The listing of the output directory *)

Lemma resolve_put_parent d : forall t nm v es,
  resolve t d = Found (Dir es) ->
  resolve (put (d ++ [nm])%list v t) d = Found (Dir (set_entry nm v es)).
Proof.
  induction d as [|c d IH]; intros t nm v es Hd.
  - simpl in Hd. injection Hd as ->. reflexivity.
  - destruct t as [x|es0]; [discriminate|].
    cbn [resolve] in Hd.
    destruct (entry c es0) as [n|] eqn:E; [|discriminate].
    change ((c :: d) ++ [nm])%list with (c :: (d ++ [nm]))%list.
    rewrite put_cons by (now destruct d).
    cbn [resolve]. rewrite entry_map_entry, E. simpl option_map. cbv iota.
    now apply IH.
Qed.

Lemma names_set_entry nm v es :
  map fst (set_entry nm v es)
  = match entry nm es with
    | Some _ => map fst es
    | None => (map fst es ++ [nm])%list
    end.
Proof.
  induction es as [|[k n] es IH]; simpl; [reflexivity|].
  destruct (String.eqb k nm) eqn:E; simpl; [reflexivity|].
  rewrite IH. now destruct (entry nm es).
Qed.

Lemma entry_in_names nm es :
  In nm (map fst es) <-> entry nm es <> None.
Proof.
  induction es as [|[k n] es IH]; simpl.
  - split; [intros [] | congruence].
  - destruct (String.eqb_spec k nm) as [->|Hk].
    + split; [discriminate | auto].
    + rewrite <- IH. split; [intros [H|H]; [contradiction | exact H] | auto].
Qed.

Lemma glob_star_names t d es :
  resolve t d = Found (Dir es) ->
  glob_star t d = map (fun nm => (d ++ [nm])%list) (map fst es).
Proof. unfold glob_star. intros ->. now rewrite map_map. Qed.

Lemma in_children (d : path) (nm : string) (names : list string) :
  In (d ++ [nm])%list (map (fun k => (d ++ [k])%list) names) <-> In nm names.
Proof.
  rewrite in_map_iff. split.
  - intros (k & Hk & Hin). apply app_inv_head in Hk. now injection Hk as <-.
  - intros H. exists nm. now split.
Qed.

(** X14. After a successful run the entries of [data/outputs] are the
    entries it had before the run, and the output file with them when no
    entry had its name: the run adds at most one entry, removes none,
    and overwrites an output file that is already there.  The order of
    the listing is the file system's; nothing is said about it. *)
Theorem output_directory_listing api t d :
  outcome api t = inr d ->
  dict_get d "success" = Some (PBool true) ->
  exists input_file,
    first_input t = Some input_file
    /\ (In ["data"; "outputs"; stem input_file ++ "_parsed.md"]
           (glob_star t ["data"; "outputs"]) ->
        Permutation (glob_star (final_fs api t) ["data"; "outputs"])
                    (glob_star t ["data"; "outputs"]))
    /\ (~ In ["data"; "outputs"; stem input_file ++ "_parsed.md"]
             (glob_star t ["data"; "outputs"]) ->
        Permutation (glob_star (final_fs api t) ["data"; "outputs"])
                    (["data"; "outputs"; (stem input_file ++ "_parsed.md")%string]
                     :: glob_star t ["data"; "outputs"])).
Proof.
  unfold outcome, final_fs. by_course api t; intros Hd Hs;
    try (apply handle_not_success in Hd; congruence);
    try (simpl in Hd; injection Hd as <-; discriminate).
  exists f. split; [exact H0|]. simpl fs.
  fold (output_filename f). set (nm := output_filename f).
  change ["data"; "outputs"; nm] with (DATA_OUTPUTS ++ [nm])%list.
  change ["data"; "outputs"] with DATA_OUTPUTS.
  destruct (write_text_put _ _ _ _ H7) as (s & _ & ->).
  change (output_path f) with (DATA_OUTPUTS ++ [nm])%list.
  pose proof (mkdir_fuel_is_dir _ _ _ _ _ _ H6) as Hdir. unfold is_dir in Hdir.
  destruct (resolve t1 DATA_OUTPUTS) as [[x|es1]| |] eqn:Hres1; try discriminate.
  rewrite (glob_star_names _ _ _ (resolve_put_parent _ _ nm (File s) _ Hres1)).
  rewrite names_set_entry.
  assert (Hold : glob_star t DATA_OUTPUTS
                 = map (fun k => (DATA_OUTPUTS ++ [k])%list) (map fst es1)).
  { pose proof (mkdir_outputs t) as Hm.
    unfold outputs_state_of in Hm.
    destruct (resolve t DATA_OUTPUTS) as [[x|es]| |] eqn:Hres.
    - rewrite Hm in H6. discriminate.
    - rewrite Hm in H6. injection H6 as <-.
      rewrite Hres in Hres1. injection Hres1 as <-.
      now apply glob_star_names.
    - destruct Hm as (t1' & Hm & Hres'). rewrite Hm in H6. injection H6 as <-.
      rewrite Hres' in Hres1. injection Hres1 as <-.
      unfold glob_star. now rewrite Hres.
    - rewrite Hm in H6. discriminate. }
  rewrite Hold, in_children, entry_in_names.
  destruct (entry nm es1) as [n|].
  - split; [intros _; apply Permutation_refl|]. intros H. now destruct H.
  - split; [intros H; now destruct H|]. intros _. rewrite map_app.
    apply Permutation_sym, Permutation_cons_append.
Qed.

Lemma output_directory_listing_witness :
  exists input_file,
    first_input workspace = Some input_file
    /\ (In ["data"; "outputs"; stem input_file ++ "_parsed.md"]
           (glob_star workspace ["data"; "outputs"]) ->
        Permutation
          (glob_star (final_fs (api_returns (json_response 200 "" success_json))
                               workspace) ["data"; "outputs"])
          (glob_star workspace ["data"; "outputs"]))
    /\ (~ In ["data"; "outputs"; stem input_file ++ "_parsed.md"]
             (glob_star workspace ["data"; "outputs"]) ->
        Permutation
          (glob_star (final_fs (api_returns (json_response 200 "" success_json))
                               workspace) ["data"; "outputs"])
          (["data"; "outputs"; (stem input_file ++ "_parsed.md")%string]
           :: glob_star workspace ["data"; "outputs"])).
Proof.
  apply (output_directory_listing
           (api_returns (json_response 200 "" success_json)) workspace
           (success_result (PStr "# Test Document") "test.pdf" "test_parsed.md")).
  - reflexivity.
  - reflexivity.
Defined.

(** ** Running twice *)

Lemma final_fs_written api t : final_fs api t = written api t.
Proof.
  unfold final_fs, written, write_step.
  by_course api t; rewrite ?handle_state; simpl fs;
    rewrite H0; try rewrite H1; try rewrite H2; try rewrite H3;
    try rewrite H4; try rewrite H5; try rewrite H6; try rewrite H7;
    try reflexivity.
  destruct v; try reflexivity. now destruct (H5 d).
Qed.

Lemma mkdir_existing t :
  is_dir t DATA_OUTPUTS = true -> mkdir true true t DATA_OUTPUTS = inr t.
Proof.
  intros H. pose proof (mkdir_outputs t) as Hm.
  unfold outputs_state_of, is_dir in *.
  destruct (resolve t DATA_OUTPUTS) as [[x|es]| |]; try discriminate. exact Hm.
Qed.

(** The write step where the output directory is there after the
    [mkdir]: what it leaves for each kind of content. *)
Lemma write_step_eq nm content t t1 es1 :
  mkdir true true t DATA_OUTPUTS = inr t1 ->
  resolve t1 DATA_OUTPUTS = Found (Dir es1) ->
  write_step (DATA_OUTPUTS ++ [nm])%list content t
  = match content with
    | PStr s =>
        if Nat.ltb NAME_MAX (String.length nm) then t1
        else if is_dir t1 (DATA_OUTPUTS ++ [nm])%list then t1
        else put (DATA_OUTPUTS ++ [nm])%list
                 (File (match utf8_encode s with inr _ => s | inl _ => "" end)) t1
    | _ => t1
    end.
Proof.
  intros Hmk Hd. unfold write_step. rewrite Hmk.
  destruct content as [| | | |s| |]; try reflexivity.
  pose proof (write_text_child t1 DATA_OUTPUTS nm s es1 Hd) as Hw.
  cbv zeta in Hw.
  destruct (Nat.ltb NAME_MAX (String.length nm));
    [destruct Hw as (-> & ->); reflexivity|].
  destruct (is_dir t1 (DATA_OUTPUTS ++ [nm])%list);
    [destruct Hw as (-> & ->); reflexivity|].
  destruct (utf8_encode s); [destruct Hw as (-> & ->) | rewrite Hw]; reflexivity.
Qed.

Lemma write_step_twice nm content t :
  write_step (DATA_OUTPUTS ++ [nm])%list content
             (write_step (DATA_OUTPUTS ++ [nm])%list content t)
  = write_step (DATA_OUTPUTS ++ [nm])%list content t.
Proof.
  destruct (mkdir true true t DATA_OUTPUTS) as [e|t1] eqn:Hmk.
  { unfold write_step at 2. rewrite Hmk. unfold write_step. now rewrite Hmk. }
  pose proof (mkdir_fuel_is_dir _ _ _ _ _ _ Hmk) as Hdir.
  pose proof Hdir as Hd1. unfold is_dir in Hd1.
  destruct (resolve t1 DATA_OUTPUTS) as [[x|es1]| |] eqn:Hres1; try discriminate.
  rewrite (write_step_eq nm content t t1 es1 Hmk Hres1).
  assert (Hsame : write_step (DATA_OUTPUTS ++ [nm])%list content t1
                  = match content with
                    | PStr s =>
                        if Nat.ltb NAME_MAX (String.length nm) then t1
                        else if is_dir t1 (DATA_OUTPUTS ++ [nm])%list then t1
                        else put (DATA_OUTPUTS ++ [nm])%list
                                 (File (match utf8_encode s with
                                        | inr _ => s
                                        | inl _ => ""
                                        end)) t1
                    | _ => t1
                    end)
    by (apply (write_step_eq nm content t1 t1 es1 (mkdir_existing t1 Hdir) Hres1)).
  destruct content as [| | | |s| |]; try exact Hsame.
  destruct (Nat.ltb NAME_MAX (String.length nm)) eqn:Hlen; [exact Hsame|].
  destruct (is_dir t1 (DATA_OUTPUTS ++ [nm])%list) eqn:Hisd; [exact Hsame|].
  set (v := File (match utf8_encode s with inr _ => s | inl _ => "" end)).
  pose proof (resolve_put_parent _ _ nm v _ Hres1) as Hres2.
  assert (Hdir2 : is_dir (put (DATA_OUTPUTS ++ [nm])%list v t1) DATA_OUTPUTS = true)
    by (unfold is_dir; now rewrite Hres2).
  rewrite (write_step_eq nm (PStr s) _ _ _ (mkdir_existing _ Hdir2) Hres2).
  rewrite Hlen.
  assert (Hf : is_dir (put (DATA_OUTPUTS ++ [nm])%list v t1)
                      (DATA_OUTPUTS ++ [nm])%list = false).
  { unfold is_dir.
    rewrite (resolve_put (DATA_OUTPUTS ++ [nm])%list v t1 es1)
      by (discriminate || exact Hres1).
    reflexivity. }
  rewrite Hf. fold v. apply put_put.
Qed.

(** X13. Running [parse_file] again, with the API behaving alike, in
    the file system the first run left changes nothing more: the second
    run leaves the file system exactly as the first did. *)
Theorem second_run_changes_nothing api t :
  final_fs api (final_fs api t) = final_fs api t.
Proof.
  destruct (final_fs_course api t) as [Hin _].
  rewrite (final_fs_written api (final_fs api t)).
  rewrite (final_fs_written api t) in *.
  unfold written at 1.
  rewrite (same_inputs_first _ _ Hin).
  destruct (first_input t) as [f|] eqn:Hf; [|reflexivity].
  rewrite (same_inputs_read _ _ _ Hin Hf).
  destruct (read_bytes t f) as [e|b] eqn:Hr; [reflexivity|].
  destruct (api (the_call f b)) as [e|r] eqn:Ha; [reflexivity|].
  destruct (http_error_of r) as [e|] eqn:Hs; [reflexivity|].
  destruct (resp_json r) as [e|v] eqn:Hj; [reflexivity|].
  destruct v as [| | | | | |j]; try reflexivity.
  destruct (py_ne_int (code_of j) 200) eqn:Hc; [reflexivity|].
  unfold written. rewrite Hf, Hr, Ha, Hs, Hj, Hc.
  apply (write_step_twice (output_filename f)).
Qed.

(** ** The name of the output file *)

Lemma rfind_dot_none s : has_dot s = false -> rfind_dot s = None.
Proof.
  induction s as [|a s IH]; simpl; [reflexivity|].
  intros H. apply orb_false_elim in H as [Ha Hs]. now rewrite (IH Hs), Ha.
Qed.

Lemma rfind_dot_last base : forall ext,
  has_dot ext = false ->
  rfind_dot (base ++ String "."%char ext) = Some (String.length base).
Proof.
  induction base as [|a base IH]; intros ext H; simpl.
  - now rewrite (rfind_dot_none ext H).
  - now rewrite (IH ext H).
Qed.

Lemma string_length_app a : forall b,
  String.length (a ++ b) = (String.length a + String.length b)%nat.
Proof. induction a as [|c a IH]; intros b; simpl; [reflexivity|]. now rewrite IH. Qed.

Lemma substring_prefix a : forall b, substring 0 (String.length a) (a ++ b) = a.
Proof.
  induction a as [|c a IH]; intros b; simpl.
  - now destruct b.
  - now rewrite IH.
Qed.

Lemma stem_of_base_ext base ext :
  base <> "" -> ext <> "" -> has_dot ext = false ->
  stem_of (base ++ "." ++ ext) = base.
Proof.
  intros Hb He Hd. unfold stem_of.
  change ("." ++ ext) with (String "."%char ext).
  rewrite (rfind_dot_last base ext Hd).
  rewrite string_length_app. simpl String.length.
  assert (H1 : Nat.ltb 0 (String.length base) = true).
  { apply Nat.ltb_lt. destruct base; [congruence | simpl; lia]. }
  assert (H2 : Nat.ltb (String.length base)
                       (String.length base + S (String.length ext) - 1) = true).
  { apply Nat.ltb_lt. destruct ext; [congruence | simpl; lia]. }
  rewrite H1, H2. simpl andb. cbv iota. apply substring_prefix.
Qed.

(** X10. For an input file named [base.ext] (a non-empty base, a
    non-empty last extension) the output file is [base_parsed.md]:
    only the last extension is cut, and two inputs that differ in it
    alone write the same output file. *)
Theorem output_name_of_extension (dir : path) (base ext : string) :
  base <> "" -> ext <> "" -> has_dot ext = false ->
  output_filename (dir ++ [(base ++ "." ++ ext)%string])%list = base ++ "_parsed.md"
  /\ forall ext',
       ext' <> "" -> has_dot ext' = false ->
       output_path (dir ++ [(base ++ "." ++ ext')%string])%list
       = output_path (dir ++ [(base ++ "." ++ ext)%string])%list.
Proof.
  intros Hb He Hd.
  assert (H : forall x, x <> "" -> has_dot x = false ->
                        output_filename (dir ++ [(base ++ "." ++ x)%string])%list
                        = base ++ "_parsed.md").
  { intros x Hx Hdx. unfold output_filename, stem, name.
    rewrite last_last. now rewrite stem_of_base_ext. }
  split; [now apply H|].
  intros ext' He' Hd'. unfold output_path. now rewrite !H.
Qed.

Lemma output_name_of_extension_witness :
  output_filename (["data"; "inputs"; "input"] ++ [("report.v2" ++ "." ++ "pdf")%string])%list
  = "report.v2" ++ "_parsed.md"
  /\ output_path ["data"; "inputs"; "input"; "report.v2.png"]
     = output_path ["data"; "inputs"; "input"; "report.v2.pdf"].
Proof.
  destruct (output_name_of_extension ["data"; "inputs"; "input"] "report.v2" "pdf")
    as (H1 & H2); try discriminate; try reflexivity.
  split; [exact H1|].
  apply (H2 "png"); [discriminate | reflexivity].
Defined.

(** X11. A name without a dot, and a name whose only dot is its first
    character (a hidden file such as [.bashrc]), have no suffix to cut:
    the output file is the whole name followed by [_parsed.md]. *)
Theorem output_name_without_extension (dir : path) (nm : string) :
  has_dot nm = false \/ (exists rest, nm = "." ++ rest /\ has_dot rest = false) ->
  output_filename (dir ++ [nm])%list = nm ++ "_parsed.md".
Proof.
  intros H. unfold output_filename, stem, name. rewrite last_last.
  f_equal. unfold stem_of.
  destruct H as [H|(rest & -> & H)].
  - now rewrite (rfind_dot_none nm H).
  - change ("." ++ rest) with (String "."%char rest). simpl rfind_dot.
    now rewrite (rfind_dot_none rest H).
Qed.

Lemma output_name_without_extension_witness :
  output_filename (["data"; "inputs"; "input"] ++ [".bashrc"])%list
  = ".bashrc" ++ "_parsed.md"
  /\ output_filename (["data"; "inputs"; "input"] ++ ["README"])%list
     = "README" ++ "_parsed.md".
Proof.
  split.
  - apply (output_name_without_extension ["data"; "inputs"; "input"] ".bashrc").
    right. exists "bashrc". split; reflexivity.
  - apply (output_name_without_extension ["data"; "inputs"; "input"] "README").
    left. reflexivity.
Defined.

(** ** Making the output directory *)

(** X15. [DATA_OUTPUTS.mkdir(parents=True, exist_ok=True)] in every
    workspace: when [data/outputs] is a directory nothing changes; when
    it is missing it is made, empty, together with [data] if need be,
    and no other path resolves differently; when [data/outputs] is a
    regular file the call raises [FileExistsError], and when [data] is a
    regular file it raises [NotADirectoryError]. *)
Theorem ensure_output_directory t :
  match resolve t ["data"; "outputs"] with
  | Found (Dir _) => mkdir true true t ["data"; "outputs"] = inr t
  | NoEnt =>
      exists t',
        mkdir true true t ["data"; "outputs"] = inr t'
        /\ resolve t' ["data"; "outputs"] = Found (Dir [])
        /\ forall q, is_prefix q ["data"; "outputs"] = false ->
                     resolve t' q = resolve t q
  | Found (File _) =>
      exists e, mkdir true true t ["data"; "outputs"] = inl e
                /\ cls e = FileExistsError
  | NotDir =>
      exists e, mkdir true true t ["data"; "outputs"] = inl e
                /\ cls e = NotADirectoryError
  end.
Proof.
  pose proof (mkdir_outputs t) as Hm. unfold outputs_state_of in Hm.
  change ["data"; "outputs"] with DATA_OUTPUTS.
  destruct (resolve t DATA_OUTPUTS) as [[x|es]| |] eqn:Hres.
  - eexists. split; [exact Hm | reflexivity].
  - exact Hm.
  - destruct Hm as (t' & Hm & Hd). exists t'. repeat split; try assumption.
    intros q Hq. now apply mkdir_outputs_frame.
  - eexists. split; [exact Hm | reflexivity].
Qed.


(** ** The tests of the repository *)

Lemma outcome_no_input api t :
  first_input t = None -> outcome api t = inr no_input_result.
Proof. intros H. unfold outcome. now rewrite (run_no_input api t H). Qed.

(** X17. The tests that expect a request need an entry in
    [data/inputs/input]: in every workspace where that directory has no
    entry, the success, API-error, timeout, connection-error and
    HTTP-error tests fail, because [parse_file] returns
    [NO_INPUT_FILE] before it posts.  The workspace that the fixture
    builds, with [test.pdf] directly in [data/inputs], is one. *)
Theorem tests_need_the_input_directory workspace :
  first_input workspace = None ->
  test_parse_file_success workspace = false
  /\ test_parse_file_api_error workspace = false
  /\ test_parse_file_timeout workspace = false
  /\ test_parse_file_connection_error workspace = false
  /\ test_parse_file_http_error workspace = false.
Proof.
  intros H.
  unfold test_parse_file_success, test_parse_file_api_error,
    test_parse_file_timeout, test_parse_file_connection_error,
    test_parse_file_http_error.
  rewrite (run_no_input _ workspace H), !(outcome_no_input _ workspace H).
  repeat split.
Qed.

Lemma tests_need_the_input_directory_witness :
  workspace_fixture = inr fixture_workspace
  /\ test_parse_file_success fixture_workspace = false
  /\ test_parse_file_api_error fixture_workspace = false
  /\ test_parse_file_timeout fixture_workspace = false
  /\ test_parse_file_connection_error fixture_workspace = false
  /\ test_parse_file_http_error fixture_workspace = false.
Proof.
  split; [reflexivity|].
  apply (tests_need_the_input_directory fixture_workspace). reflexivity.
Defined.

(** X18. [test_parse_file_no_input] does not patch [requests.post], and
    does not need to: in the workspace of the fixture, once the files of
    [data/inputs] are unlinked, [parse_file] returns [NO_INPUT_FILE]
    without a request, so the test passes whatever the network does. *)
Theorem no_input_test_passes_offline network :
  exists workspace,
    workspace_fixture = inr workspace
    /\ test_parse_file_no_input network workspace = true
    /\ forall workspace',
         unlink_all workspace (glob_star workspace ["data"; "inputs"])
         = inr workspace' ->
         posts (events network workspace') = [].
Proof.
  exists fixture_workspace. split; [reflexivity|].
  assert (Hun : unlink_all fixture_workspace
                           (glob_star fixture_workspace ["data"; "inputs"])
                = inr (Dir [("data", Dir [("inputs", Dir [])])]))
    by reflexivity.
  split.
  - unfold test_parse_file_no_input. rewrite Hun.
    now rewrite outcome_no_input by reflexivity.
  - intros w. rewrite Hun. intros [= <-].
    unfold events. now rewrite run_no_input by reflexivity.
Qed.

(** X16. With the input where the source looks for it, the five tests
    that mock the API pass: in every workspace whose input directory
    lists [test.pdf], a regular file, first, and which has no
    [data/outputs] yet, the assertions of the success, API-error,
    timeout, connection-error and HTTP-error tests all hold. *)
Theorem tests_pass_with_the_input_in_place workspace data :
  first_input workspace = Some ["data"; "inputs"; "input"; "test.pdf"] ->
  read_bytes workspace ["data"; "inputs"; "input"; "test.pdf"] = inr data ->
  resolve workspace ["data"; "outputs"] = NoEnt ->
  test_parse_file_success workspace = true
  /\ test_parse_file_api_error workspace = true
  /\ test_parse_file_timeout workspace = true
  /\ test_parse_file_connection_error workspace = true
  /\ test_parse_file_http_error workspace = true.
Proof.
  intros Hfirst Hread Hout.
  split; [|repeat split].
  - (* success *)
    pose proof (mkdir_outputs workspace) as Hm. unfold outputs_state_of in Hm.
    change ["data"; "outputs"] with DATA_OUTPUTS in Hout. rewrite Hout in Hm.
    destruct Hm as (t1 & Hmk & Hres1).
    set (content := "# Test Document" ++ newline ++ newline ++ "This is a test.").
    set (out := (DATA_OUTPUTS ++ ["test_parsed.md"])%list).
    assert (Hw : write_text t1 out (PStr content)
                 = inr (put out (File content) t1)).
    { rewrite write_text_str by discriminate.
      replace (parent out) with DATA_OUTPUTS by reflexivity.
      now rewrite Hres1. }
    pose proof (run_code_200 (api_returns mock_success) workspace _ Hfirst _ Hread
                             mock_success eq_refl eq_refl _ eq_refl eq_refl)
      as Hrun.
    cbv zeta in Hrun. rewrite Hmk in Hrun.
    change (write_text t1 _ _) with (write_text t1 out (PStr content)) in Hrun.
    rewrite Hw in Hrun.
    unfold test_parse_file_success. rewrite Hrun. cbn [fst snd fs].
    change ["data"; "outputs"] with DATA_OUTPUTS.
    pose proof (glob_star_names _ _ _
                  (resolve_put_parent _ _ "test_parsed.md" (File content) _ Hres1))
      as Hglob.
    fold out in Hglob. rewrite Hglob.
    cbn [set_entry map fst List.length Nat.eqb].
    unfold read_bytes.
    change (DATA_OUTPUTS ++ ["test_parsed.md"])%list with out.
    rewrite (resolve_put out (File content) t1 [])
      by (discriminate || exact Hres1).
    reflexivity.
  - unfold test_parse_file_api_error, outcome.
    now rewrite (run_parse_failed (api_returns mock_api_error) workspace _ Hfirst
                                  _ Hread mock_api_error eq_refl eq_refl
                                  _ eq_refl eq_refl).
  - unfold test_parse_file_timeout, outcome.
    now rewrite (run_post_raises (api_raises timeout_exn) workspace _ Hfirst
                                 _ Hread timeout_exn eq_refl).
  - unfold test_parse_file_connection_error, outcome.
    now rewrite (run_post_raises (api_raises connection_exn) workspace _ Hfirst
                                 _ Hread connection_exn eq_refl).
  - unfold test_parse_file_http_error, outcome.
    now rewrite (run_status_raises (api_returns mock_not_found) workspace _ Hfirst
                                   _ Hread mock_not_found eq_refl
                                   (mkExn HTTPError
                                      "404 Client Error:  for url: http://10.0.0.111:31475/parse?format=md&cache=True"
                                      (Some (mkInfo 404 "Not Found")))
                                   eq_refl).
Qed.

Lemma tests_pass_with_the_input_in_place_witness :
  test_parse_file_success workspace = true
  /\ test_parse_file_api_error workspace = true
  /\ test_parse_file_timeout workspace = true
  /\ test_parse_file_connection_error workspace = true
  /\ test_parse_file_http_error workspace = true.
Proof.
  apply (tests_pass_with_the_input_in_place workspace "Mock PDF content").
  - reflexivity.
  - reflexivity.
  - reflexivity.
Defined.

(** ** The HTTP status of an accepted response *)

(** X12. Of a response that has no error status (400..599), only the
    JSON body counts: two responses with the same body give the same
    result and leave the same file system, whatever their status codes,
    reasons and texts are.  So a 201 or a 304 is treated as a 200. *)
Theorem accepted_status_is_ignored t r1 r2 :
  http_error_of r1 = None ->
  http_error_of r2 = None ->
  resp_json r1 = resp_json r2 ->
  outcome (api_returns r1) t = outcome (api_returns r2) t
  /\ final_fs (api_returns r1) t = final_fs (api_returns r2) t.
Proof.
  intros H1 H2 Hj. split.
  - rewrite !outcome_observed. unfold observed_outcome, api_returns.
    now rewrite H1, H2, Hj.
  - rewrite !final_fs_written. unfold written, api_returns.
    now rewrite H1, H2, Hj.
Qed.

Lemma accepted_status_is_ignored_witness :
  outcome (api_returns (json_response 304 "" success_json)) workspace
  = outcome (api_returns (json_response 200 "OK" success_json)) workspace
  /\ final_fs (api_returns (json_response 304 "" success_json)) workspace
     = final_fs (api_returns (json_response 200 "OK" success_json)) workspace.
Proof.
  apply (accepted_status_is_ignored workspace
           (json_response 304 "" success_json)
           (json_response 200 "OK" success_json)).
  - reflexivity.
  - reflexivity.
  - reflexivity.
Defined.
